(** * gh2mg: a bridge between GitHub issue comments and Mailgun e-mails

    Shallow embedding of [main.go] (package [main]) and the properties of
    its two webhook handlers, of the address extraction and of the way the
    handlers use the key/value store.

    Conventions of the embedding:
    - a Go [string] is a sequence of bytes: [String.string];
    - a Go [int] is a [Z] (the lengths and offsets computed here stay far
      below 2^63, and issue numbers are only stored and passed on);
    - a run-time panic and [log.Fatal] (which ends the process with
      [os.Exit(1)]) are explicit results, see [outcome];
    - the package-level variables are the record [Globals]; every function
      that reads or writes them runs in the monad [M];
    - the calls to GitHub and Mailgun are recorded in a trace of [event]s,
      and their answers are read from a [World]. *)

From Stdlib Require Import ZArith String Ascii List Bool Lia.
From stdpp Require Import base option gmap strings list fin_maps.

Local Open Scope string_scope.
Local Open Scope list_scope.
Local Open Scope Z_scope.

(** ** Results of a Go computation *)

(** A function returns, or [log.Fatal] ends the process, or a run-time
    error panics. A panic inside a handler unwinds the goroutine of that
    request only ([net/http] recovers it and closes the connection without
    a response); [Exit] ends the whole service. *)

Inductive outcome (A : Type) : Type :=
| Done (a : A)            (* the function returned [a] *)
| Exit                    (* [log.Fatal]: the process ended, exit status 1 *)
| Panic (reason : string) (* run-time panic, unwinding the goroutine *).

Arguments Done {A} a.
Arguments Exit {A}.
Arguments Panic {A} reason.

(** ** Strings: [len], [strings.Index], [strings.Contains], slicing *)

Module GoString.

Definition len (s : string) : Z := Z.of_nat (String.length s).

Fixpoint drop (n : nat) (s : string) : string :=
  match n, s with
  | O, _ => s
  | S n', String _ s' => drop n' s'
  | S _, EmptyString => EmptyString
  end.

Fixpoint take (n : nat) (s : string) : string :=
  match n, s with
  | O, _ => EmptyString
  | S n', String c s' => String c (take n' s')
  | S _, EmptyString => EmptyString
  end.

(** The byte offsets at which [sep] occurs in [s], counted from [i]. *)
Fixpoint occurrences_from (i : nat) (sep s : string) : list nat :=
  (if String.prefix sep s then [i] else []) ++
  match s with
  | EmptyString => []
  | String _ s' => occurrences_from (S i) sep s'
  end.

Definition occurrences (sep s : string) : list nat := occurrences_from 0 sep s.

(** [strings.Index(s, sep)]: offset of the first occurrence, or -1. *)
Fixpoint Index_from (i : nat) (s sep : string) : Z :=
  if String.prefix sep s then Z.of_nat i
  else match s with
       | EmptyString => -1
       | String _ s' => Index_from (S i) s' sep
       end.

Definition Index (s sep : string) : Z := Index_from 0 s sep.

(** [sep] occurs nowhere in [s]. *)
Fixpoint no_occ (sep s : string) : Prop :=
  String.prefix sep s = false /\
  match s with
  | EmptyString => True
  | String _ s' => no_occ sep s'
  end.

(** The byte [c] is one of the bytes of [s]. *)
Fixpoint mem_byte (c : ascii) (s : string) : bool :=
  match s with
  | EmptyString => false
  | String x s' => Ascii.eqb c x || mem_byte c s'
  end.

(** [strings.Contains(s, sub)] is [strings.Index(s, sub) >= 0]. *)
Definition Contains (s sub : string) : bool := 0 <=? Index s sub.

(** [s[lo:hi]]: panics unless [0 <= lo <= hi <= len(s)]. *)
Definition slice (s : string) (lo hi : Z) : outcome string :=
  if (0 <=? lo) && (lo <=? hi) && (hi <=? len s)
  then Done (take (Z.to_nat (hi - lo)) (drop (Z.to_nat lo) s))
  else Panic "slice bounds out of range".

(** [s[lo:]] *)
Definition slice_from (s : string) (lo : Z) : outcome string := slice s lo (len s).

(** [s[:hi]] and [s[0:hi]] *)
Definition slice_to (s : string) (hi : Z) : outcome string := slice s 0 hi.

End GoString.

Import GoString.

(** ** [extractEmailFromIssue] *)

#[global] Instance outcome_ret : MRet outcome := fun A a => Done a.

#[global] Instance outcome_bind : MBind outcome := fun A B k o =>
  match o with
  | Done a => k a
  | Exit => Exit
  | Panic r => Panic r
  end.

(** The byte 0x22, the double quote of the Go literals below. *)
Definition dq : ascii := "034"%char.

(** The opening marker searched by [extractEmailFromIssue]: the 17 bytes
    of an anchor tag up to and including the single quote that precedes
    the address. *)
Definition mailto_marker : string := "<a href=" +:+ String dq "mailto:'".

Definition extractEmailFromIssue (body : string) : outcome string :=
  body_email_start ← slice_from body (Index body mailto_marker + len mailto_marker);
  let email_end := Index body_email_start "</a>" in
  html_email ← slice body_email_start 0 email_end;
  email ← slice_to html_email (Index html_email "'");
  mret email.

(** ** Library calls and their answers *)

(** A value or a non-nil [error] (its message). *)
Inductive result (A : Type) : Type :=
| Ok (a : A)
| Err (msg : string).

Arguments Ok {A} a.
Arguments Err {A} msg.

(** The key/value store [github.com/tadvi/rkv], used through [Put], [Get]
    and [GetKeys]. The library is not part of the repository; it is
    modelled as a finite map from keys to the stored integers, in which
    [Put] binds the key to the value, whether or not the key was bound. *)
Module Rkv.

Definition Put (key : string) (value : Z) (db : gmap string Z)
  : gmap string Z * option string :=
  (<[key := value]> db, None).

Definition Get (key : string) (db : gmap string Z) : result Z :=
  match db !! key with
  | Some v => Ok v
  | None => Err "key not found"
  end.

(** [GetKeys("", -1)]: every key (empty prefix, no limit). *)
Definition GetKeys (db : gmap string Z) : list string := (map_to_list db).*1.

End Rkv.

(** [net/http]'s [StatusText], on the codes the handlers use. *)
Definition StatusText (code : Z) : string :=
  if code =? 200 then "OK"
  else if code =? 400 then "Bad Request"
  else if code =? 405 then "Method Not Allowed"
  else if code =? 406 then "Not Acceptable"
  else if code =? 500 then "Internal Server Error"
  else "".

(** What was written to the [http.ResponseWriter]. *)
Record Response : Type := { status : Z; content : string }.

(** [http.Error(w, text, code)] writes the text and a newline. *)
Definition http_Error (text : string) (code : Z) : Response :=
  {| status := code; content := text +:+ String "010" "" |}.

(** [w.Write([]byte(text))] with no status set before: 200. *)
Definition w_Write (text : string) : Response :=
  {| status := 200; content := text |}.

(** ** The data of the program *)

Record user_t : Type := { Login : string; Url : string; user_ID : Z }.

Record issue_t : Type :=
  { issue_ID : Z; Number : Z; Title : string; issue_User : user_t;
    State : string; issue_Body : string }.

Record comment_t : Type :=
  { comment_User : user_t; comment_Body : string; comment_ID : Z }.

Record repository_t : Type := { Name : string; Owner_Login : string }.

Record payload : Type :=
  { Action : string; Issue : issue_t; Comment : comment_t;
    Repository : repository_t }.

(** What [ioutil.ReadAll(req.Body)] followed by [json.Unmarshal] gives;
    the decoder itself is not modelled. *)
Inductive body_t : Type :=
| ReadFailed (err : string)
| UnmarshalFailed (err : string)
| Decoded (p : payload).

(** The parts of an [http.Request] the handlers read. [ParseForm] is the
    error of [req.ParseForm()], [PostForm] the parsed form. *)
Record Request : Type :=
  { Method : string;
    Header : gmap string string;
    Body : body_t;
    ParseForm : option string;
    PostForm : gmap string (list string) }.

(** [req.Header.Get(key)]: the empty string when the header is absent. *)
Definition Header_Get (req : Request) (key : string) : string :=
  default "" (Header req !! key).

(** [req.PostForm[key]]: the nil slice when the key is absent. *)
Definition PostForm_at (req : Request) (key : string) : list string :=
  default [] (PostForm req !! key).

(** [s[0]] on a slice of strings. *)
Definition first_of (s : list string) : outcome string :=
  match s with
  | x :: _ => Done x
  | [] => Panic "index out of range"
  end.

(** The package-level variables the handlers share: [dryrun], the store
    handle [kv] (a pointer, [None] is nil) and the content of [gh_cache].
    The expiry of cache entries is not modelled: the record holds the
    entries that are live when the request is handled. *)
Record Globals : Type :=
  { dryrun : bool;
    kv : option (gmap string Z);
    gh_cache : gmap string string }.

Inductive level : Type := Info | Error | Fatal.

(** What a run does to the outside, in order. *)
Inductive event : Type :=
| UsersGet (username : string)
| IssuesGet (owner repo : string) (number : Z)
| IssuesCreateComment (owner repo : string) (number : Z) (text : string)
| MgSend (sender subject text recipient : string)
| Log (lvl : level) (msg : string)
| PrintEntry (key : string) (value : Z)
| PrintIssue (err : option string).

(** The answers of GitHub and Mailgun. [Users_Get] gives the [Name] field
    of the user, a pointer that may be nil. *)
Record World : Type :=
  { Users_Get : string -> result (option string);
    Issues_Get : string -> string -> Z -> option string;
    Issues_CreateComment : string -> string -> Z -> string -> option string;
    mg_Send : string -> string -> string -> string -> result (string * string) }.

(** ** The monad of the handlers *)

Record St : Type := { globals : Globals; trace : list event }.

Definition M (A : Type) : Type := St -> outcome A * St.

#[global] Instance M_ret : MRet M := fun A a st => (Done a, st).

#[global] Instance M_bind : MBind M := fun A B k m st =>
  match m st with
  | (Done a, st') => k a st'
  | (Exit, st') => (Exit, st')
  | (Panic r, st') => (Panic r, st')
  end.

Definition emit (e : event) : M unit := fun st =>
  (Done tt, {| globals := globals st; trace := trace st ++ [e] |}).

Definition get_globals : M Globals := fun st => (Done (globals st), st).

Definition put_globals (g : Globals) : M unit := fun st =>
  (Done tt, {| globals := g; trace := trace st |}).

Definition lift {A} (o : outcome A) : M A := fun st => (o, st).

(** [log.Fatal(msg)]: the entry is logged and the process exits. *)
Definition log_Fatal {A} (msg : string) : M A := fun st =>
  (Exit, {| globals := globals st; trace := trace st ++ [Log Fatal msg] |}).

(** A method called on the nil [*rkv.Rkv]: the methods of the store read
    the fields of their receiver, which is a nil dereference. *)
Definition nil_dereference {A} : M A :=
  lift (Panic "invalid memory address or nil pointer dereference").

(** ** The functions of [main.go] *)

Section Program.

Variable W : World.

Definition cache_Set (username name : string) : M unit :=
  g ← get_globals;
  put_globals {| dryrun := dryrun g; kv := kv g;
                 gh_cache := <[username := name]> (gh_cache g) |}.

Definition getNameForUser (username : string) : M string :=
  g ← get_globals;
  match gh_cache g !! username with
  | Some human_name =>
      _ ← emit (Log Info "Fetching Username");
      mret human_name
  | None =>
      _ ← emit (UsersGet username);
      match Users_Get W username with
      | Err err => log_Fatal err
      | Ok None => nil_dereference
      | Ok (Some name) =>
          _ ← emit (Log Info "Fetching Username");
          _ ← cache_Set username name;
          mret name
      end
  end.

Definition commentToEmail (author title comment reply_to : string) : M string :=
  _ ← emit (Log Info "EMail Hanlder");
  g ← get_globals;
  if dryrun g then mret ""
  else
    let sender := author +:+ " <bugs@usegalaxy.eu>" in
    let subject := "Re: " +:+ title in
    _ ← emit (MgSend sender subject comment reply_to);
    match mg_Send W sender subject comment reply_to with
    | Err err => log_Fatal err
    | Ok (resp, id) =>
        _ ← emit (Log Info "Mailgun");
        mret id
    end.

(** The loop over [kv.GetKeys("", -1)] that prints every entry. *)
Fixpoint print_entries (db : gmap string Z) (arr : list string) : M unit :=
  match arr with
  | [] => mret tt
  | key :: rest =>
      match Rkv.Get key db with
      | Err err => log_Fatal ("Error while iterating %q" +:+ err)
      | Ok v =>
          _ ← emit (PrintEntry key v);
          print_entries db rest
      end
  end.

Definition emailToComment (comment in_reply_to : string) : M unit :=
  _ ← emit (Log Info "Comment Hanlder");
  g ← get_globals;
  match kv g with
  | None => nil_dereference
  | Some db =>
      _ ← print_entries db (Rkv.GetKeys db);
      let issueNum := 1 in
      _ ← emit (IssuesGet "usegalaxy.eu" "issues" issueNum);
      let err := Issues_Get W "usegalaxy.eu" "issues" issueNum in
      _ ← match err with
          | Some e => emit (Log Error e)
          | None => mret tt
          end;
      _ ← emit (PrintIssue err);
      if dryrun g then mret tt
      else
        _ ← emit (IssuesCreateComment "usegalaxy.eu" "issue-testing" issueNum comment);
        match Issues_CreateComment W "usegalaxy.eu" "issue-testing" issueNum comment with
        | Some e => emit (Log Error e)
        | None => mret tt
        end
  end.

Definition mailgunWebHook (req : Request) : M Response :=
  if negb (String.eqb (Method req) "POST")
  then mret (http_Error (StatusText 405) 405)
  else
    match ParseForm req with
    | Some err => mret (http_Error err 500)
    | None =>
        let html_body := PostForm_at req "stripped-html" in
        let from := PostForm_at req "From" in
        let in_reply_to := PostForm_at req "In-Reply-To" in
        from0 ← lift (first_of from);
        html_body0 ← lift (first_of html_body);
        in_reply_to0 ← lift (first_of in_reply_to);
        _ ← emailToComment (from0 +:+ " wrote: " +:+ String "010" (String "010" html_body0))
                           in_reply_to0;
        mret (w_Write "OK")
    end.

(** [kv.Put(response, &comment.Issue.Number)]; the error that [Put]
    returns is not looked at. *)
Definition kv_Put (key : string) (value : Z) : M unit :=
  g ← get_globals;
  match kv g with
  | None => nil_dereference
  | Some db =>
      put_globals {| dryrun := dryrun g; kv := Some (Rkv.Put key value db).1;
                     gh_cache := gh_cache g |}
  end.

Definition githubWebHook (req : Request) : M Response :=
  if negb (String.eqb (Method req) "POST")
  then mret (http_Error (StatusText 405) 405)
  else if String.eqb (Header_Get req "X-GitHub-Event") "ping"
  then
    _ ← emit (Log Info "GitHub pinged us");
    mret (http_Error (StatusText 200) 200)
  else if negb (String.eqb (Header_Get req "X-GitHub-Event") "issue_comment")
  then
    _ ← emit (Log Error ("github event not supported: " +:+ Header_Get req "X-GitHub-Event"));
    mret (http_Error (StatusText 400) 400)
  else if negb (Contains (Header_Get req "Content-Type") "json")
  then
    _ ← emit (Log Error "only json payload is supported");
    mret (http_Error (StatusText 406) 406)
  else
    match Body req with
    | ReadFailed err =>
        _ ← emit (Log Error ("failed to read request body:" +:+ err));
        mret (http_Error (StatusText 500) 500)
    | UnmarshalFailed err =>
        _ ← emit (Log Error ("failed to unmarshal payload to struct:" +:+ err));
        mret (http_Error (StatusText 500) 500)
    | Decoded comment =>
        if negb (String.eqb (Action comment) "created")
        then
          _ ← emit (Log Info "Deleting/Editing comments is not supported");
          mret (http_Error (StatusText 200) 200)
        else
          author ← getNameForUser (Login (comment_User (Comment comment)));
          reply_to ← lift (extractEmailFromIssue (issue_Body (Issue comment)));
          response ← commentToEmail author (Title (Issue comment))
                                    (comment_Body (Comment comment)) reply_to;
          g ← get_globals;
          _ ← (if negb (dryrun g)
               then if negb (String.eqb response "")
                    then kv_Put response (Number (Issue comment))
                    else emit (Log Error "Response to message ID was nil but not dry-run")
               else mret tt);
          mret (w_Write "OK")
    end.

End Program.

(** [app.Action] up to the registration of the handlers. [opened] is what
    [rkv.NewSafe] returns. The store is bound to a variable of the closure
    ([kv, err := rkv.NewSafe(...)]), so the package-level [kv] keeps the
    value it had; [dryrun] and [gh_cache] are assigned. *)
Definition app_Action (flag_dryrun : bool) (opened : result (gmap string Z)) : M unit :=
  match opened with
  | Err _ => log_Fatal "Can not open database file"
  | Ok kv_local =>
      _ ← print_entries kv_local (Rkv.GetKeys kv_local);
      g ← get_globals;
      put_globals {| dryrun := flag_dryrun; kv := kv g; gh_cache := ∅ |}
  end.

(** The package-level variables when [main] starts: Go's zero values. *)
Definition zero_globals : Globals := {| dryrun := false; kv := None; gh_cache := ∅ |}.

Definition start (g : Globals) : St := {| globals := g; trace := [] |}.

(** ** Reading a trace *)

(** The comments submitted to the tracker: issue number and text. *)
Definition comment_calls (tr : list event) : list (Z * string) :=
  flat_map (fun e => match e with
                     | IssuesCreateComment _ _ n text => [(n, text)]
                     | _ => []
                     end) tr.

(** The mails handed to Mailgun: sender, subject, text, recipient. *)
Definition send_calls (tr : list event) : list (string * string * string * string) :=
  flat_map (fun e => match e with
                     | MgSend sender subject text recipient =>
                         [(sender, subject, text, recipient)]
                     | _ => []
                     end) tr.

(** The calls that reach GitHub, of any kind. *)
Definition github_calls (tr : list event) : list event :=
  List.filter (fun e => match e with
                        | UsersGet _ | IssuesGet _ _ _ | IssuesCreateComment _ _ _ _ => true
                        | _ => false
                        end) tr.

Definition error_logs (tr : list event) : list string :=
  flat_map (fun e => match e with Log Error msg => [msg] | _ => [] end) tr.

(** What the loop of [print_entries] prints for the keys [arr]. *)
Definition entry_events (db : gmap string Z) (arr : list string) : list event :=
  List.map (fun key => PrintEntry key (default 0 (db !! key))) arr.

(** What [emailToComment] does to the outside when the store is open. *)
Definition emailToComment_events (W : World) (dry : bool) (db : gmap string Z)
    (comment : string) : list event :=
  [Log Info "Comment Hanlder"] ++ entry_events db (Rkv.GetKeys db) ++
  [IssuesGet "usegalaxy.eu" "issues" 1] ++
  match Issues_Get W "usegalaxy.eu" "issues" 1 with
  | Some e => [Log Error e]
  | None => []
  end ++
  [PrintIssue (Issues_Get W "usegalaxy.eu" "issues" 1)] ++
  (if dry then []
   else IssuesCreateComment "usegalaxy.eu" "issue-testing" 1 comment ::
        match Issues_CreateComment W "usegalaxy.eu" "issue-testing" 1 comment with
        | Some e => [Log Error e]
        | None => []
        end).

(** The text that [mailgunWebHook] hands to [emailToComment]. *)
Definition quoted_reply (from html_body : string) : string :=
  from +:+ " wrote: " +:+ String "010" (String "010" html_body).

(** ** Requests that reach the core of a handler *)

(** A tracker request that passes the checks of [githubWebHook] on the
    method, the event type, the content type and the body, with a payload
    whose action is the creation of a comment. *)
Definition comment_created (req : Request) (p : payload) : Prop :=
  Method req = "POST" /\
  Header_Get req "X-GitHub-Event" = "issue_comment" /\
  Contains (Header_Get req "Content-Type") "json" = true /\
  Body req = Decoded p /\
  Action p = "created".

(** A mail request whose form was parsed. *)
Definition form_posted (req : Request) : Prop :=
  Method req = "POST" /\ ParseForm req = None.

(** The first values of the three fields [mailgunWebHook] reads. *)
Definition form_fields (req : Request) (from html_body in_reply_to : string) : Prop :=
  first_of (PostForm_at req "From") = Done from /\
  first_of (PostForm_at req "stripped-html") = Done html_body /\
  first_of (PostForm_at req "In-Reply-To") = Done in_reply_to.

(** Nothing was delivered and the store handle is as before. *)
Definition nothing_delivered (st st' : St) : Prop :=
  kv (globals st') = kv (globals st) /\
  send_calls (trace st') = send_calls (trace st) /\
  comment_calls (trace st') = comment_calls (trace st).

(** ** Issue bodies and concrete runs *)

(** The contact block of an issue body: the marker, the address between
    single quotes, the end of the opening tag, the link text and the
    closing tag. *)
Definition contact_fragment (address inner : string) : string :=
  mailto_marker +:+ address +:+ String "'" (String dq ">") +:+ inner +:+ "</a>".

Module Scenario.

Definition alice : user_t := {| Login := "alice"; Url := ""; user_ID := 1 |}.

Definition issue_body : string :=
  "Contact: " +:+ contact_fragment "a@x.org" "a@x.org" +:+ " thanks".

Definition comment_event (action : string) (number : Z) : payload :=
  {| Action := action;
     Issue := {| issue_ID := 1000 + number; Number := number; Title := "Bug";
                 issue_User := alice; State := "open"; issue_Body := issue_body |};
     Comment := {| comment_User := alice; comment_Body := "hello"; comment_ID := 5 |};
     Repository := {| Name := "issues"; Owner_Login := "usegalaxy.eu" |} |}.

Definition tracker_request (action : string) (number : Z) : Request :=
  {| Method := "POST";
     Header := <["X-GitHub-Event" := "issue_comment"]>
                 (<["Content-Type" := "application/json"]> ∅);
     Body := Decoded (comment_event action number);
     ParseForm := None;
     PostForm := ∅ |}.

Definition mail_request (form : list (string * list string)) : Request :=
  {| Method := "POST";
     Header := <["Content-Type" := "application/x-www-form-urlencoded"]> ∅;
     Body := UnmarshalFailed "invalid character";
     ParseForm := None;
     PostForm := list_to_map form |}.

Definition reply (from html_body in_reply_to : string) : Request :=
  mail_request [("From", [from]); ("stripped-html", [html_body]);
                ("In-Reply-To", [in_reply_to])].

(** Every provider answers. *)
Definition up : World :=
  {| Users_Get := fun username =>
       if String.eqb username "alice" then Ok (Some "Alice A.") else Err "404 Not Found";
     Issues_Get := fun _ _ _ => None;
     Issues_CreateComment := fun _ _ _ _ => None;
     mg_Send := fun _ _ _ _ => Ok ("Queued. Thank you.", "m-100") |}.

Definition identity_down : World :=
  {| Users_Get := fun _ => Err "502 Bad Gateway";
     Issues_Get := Issues_Get up;
     Issues_CreateComment := Issues_CreateComment up;
     mg_Send := mg_Send up |}.

Definition mail_down : World :=
  {| Users_Get := Users_Get up;
     Issues_Get := Issues_Get up;
     Issues_CreateComment := Issues_CreateComment up;
     mg_Send := fun _ _ _ _ => Err "mailgun: 500" |}.

Definition tracker_down : World :=
  {| Users_Get := Users_Get up;
     Issues_Get := Issues_Get up;
     Issues_CreateComment := fun _ _ _ _ => Some "github: 500";
     mg_Send := mg_Send up |}.

(** A process whose store handle holds [db]. *)
Definition opened (dry : bool) (db : gmap string Z) : St :=
  start {| dryrun := dry; kv := Some db; gh_cache := ∅ |}.

(** A process whose store handle is nil. *)
Definition unopened (dry : bool) : St :=
  start {| dryrun := dry; kv := None; gh_cache := ∅ |}.

End Scenario.

(** * Properties *)

(** ** Strings *)

Module GoStringFacts.

Lemma str_app_cons (c : ascii) (a b : string) : String c a +:+ b = String c (a +:+ b).
Proof. reflexivity. Qed.

Lemma str_app_empty (b : string) : "" +:+ b = b.
Proof. reflexivity. Qed.

Ltac unapp := rewrite ?str_app_cons, ?str_app_empty.

Lemma str_length_app (a b : string) :
  String.length (a +:+ b) = (String.length a + String.length b)%nat.
Proof. induction a as [|c a IH]; unapp; simpl; [reflexivity | now rewrite IH]. Qed.

Lemma str_len_app (a b : string) : len (a +:+ b) = len a + len b.
Proof. unfold len. rewrite str_length_app. lia. Qed.

Lemma len_nonneg (s : string) : 0 <= len s.
Proof. unfold len. lia. Qed.

Lemma str_app_assoc (a b c : string) : (a +:+ b) +:+ c = a +:+ (b +:+ c).
Proof. induction a as [|x a IH]; unapp; [reflexivity | now rewrite IH]. Qed.

Lemma str_drop_app (a b : string) : drop (String.length a) (a +:+ b) = b.
Proof. induction a as [|c a IH]; unapp; simpl; [now destruct b | exact IH]. Qed.

Lemma str_take_all (s : string) (n : nat) : (String.length s <= n)%nat -> take n s = s.
Proof.
  revert n. induction s as [|c s IH]; intros [|n] H; simpl in *; try reflexivity; try lia.
  rewrite IH by lia. reflexivity.
Qed.

Lemma str_take_app (a b : string) (n : nat) :
  take (String.length a + n) (a +:+ b) = a +:+ take n b.
Proof. induction a as [|c a IH]; unapp; simpl; [reflexivity | now rewrite IH]. Qed.

Lemma str_take_app_exact (a b : string) : take (String.length a) (a +:+ b) = a.
Proof.
  induction a as [|c a IH]; unapp; simpl; [now destruct b | now rewrite IH].
Qed.

Lemma str_take_drop (n : nat) (s : string) : take n s +:+ drop n s = s.
Proof.
  revert s. induction n as [|n IH]; intros [|c s]; simpl; unapp; try reflexivity.
  now rewrite IH.
Qed.

Lemma str_length_drop (n : nat) (s : string) :
  String.length (drop n s) = (String.length s - n)%nat.
Proof.
  revert s. induction n as [|n IH]; intros [|c s]; simpl; try lia. apply IH.
Qed.

Lemma str_prefix_app (a b : string) : String.prefix a (a +:+ b) = true.
Proof.
  induction a as [|c a IH]; unapp; simpl; [now destruct b |].
  destruct (ascii_dec c c); [exact IH | congruence].
Qed.

Lemma str_prefix_byte (q c : ascii) (s : string) :
  String.prefix (String q "") (String c s) = if ascii_dec q c then true else false.
Proof. simpl. destruct (ascii_dec q c); [now destruct s | reflexivity]. Qed.

(** Appending text that starts with a byte foreign to [sep] creates no
    occurrence of [sep] at the front. *)
Lemma str_prefix_app_foreign (sep x t : string) (q : ascii) :
  mem_byte q sep = false ->
  String.prefix sep (x +:+ String q t) = String.prefix sep x.
Proof.
  revert x. induction sep as [|a sep IH]; intros x Hq; [now destruct x |].
  simpl in Hq. apply orb_false_elim in Hq as [Hqa Hq].
  destruct x as [|c x]; unapp; simpl.
  - destruct (ascii_dec a q) as [->|]; [|reflexivity].
    rewrite Ascii.eqb_refl in Hqa. discriminate.
  - destruct (ascii_dec a c); [now apply IH | reflexivity].
Qed.

(** *** [Index] *)

Lemma Index_from_range (s sep : string) (i : nat) :
  Index_from i s sep = -1 \/
  Z.of_nat i <= Index_from i s sep <= Z.of_nat i + len s.
Proof.
  revert i. induction s as [|c s IH]; intros i; cbn [Index_from occurrences_from no_occ].
  - destruct (String.prefix sep ""); unfold len; simpl; lia.
  - destruct (String.prefix sep (String c s)).
    + right. unfold len. simpl. lia.
    + destruct (IH (S i)) as [->|H]; [now left | right].
      unfold len in *. simpl. lia.
Qed.

Lemma Index_from_occurrences (s sep : string) (i : nat) :
  Index_from i s sep =
  match occurrences_from i sep s with
  | [] => -1
  | j :: _ => Z.of_nat j
  end.
Proof.
  revert i. induction s as [|c s IH]; intros i; cbn [Index_from occurrences_from no_occ].
  - now destruct (String.prefix sep "").
  - destruct (String.prefix sep (String c s)); simpl; [reflexivity | apply IH].
Qed.

Lemma Index_from_absent (s sep : string) (i : nat) :
  Index_from i s sep = -1 <-> no_occ sep s.
Proof.
  revert i. induction s as [|c s IH]; intros i; cbn [Index_from occurrences_from no_occ].
  - destruct (String.prefix sep ""); split; intros H; try lia; try tauto.
  - destruct (String.prefix sep (String c s)).
    + split; intros H; [lia | destruct H; discriminate].
    + rewrite (IH (S i)). tauto.
Qed.

Lemma Contains_false (s sep : string) : Contains s sep = false <-> no_occ sep s.
Proof.
  unfold Contains, Index. rewrite <- (Index_from_absent s sep 0).
  destruct (Index_from_range s sep 0) as [->|H]; [now split |].
  split; intros H'; [apply Z.leb_gt in H'; lia | lia].
Qed.

Lemma Contains_false_Index (s sep : string) : Contains s sep = false -> Index s sep = -1.
Proof. intros H. apply Contains_false in H. now apply Index_from_absent. Qed.

(** [sep] occurs in every text that has it as a part. *)
Lemma occurs_in_app (x sep y : string) : ~ no_occ sep (x +:+ sep +:+ y).
Proof.
  induction x as [|c x IH]; unapp; intros H.
  - assert (Hp : String.prefix sep (sep +:+ y) = true) by apply str_prefix_app.
    destruct (sep +:+ y); cbn [no_occ] in H; destruct H; congruence.
  - cbn [no_occ] in H. destruct H as [_ H]. now apply IH.
Qed.

(** The search skips a part free of [sep] that is followed by a byte
    foreign to [sep]. *)
Lemma Index_from_skip (a t sep : string) (q : ascii) (i : nat) :
  mem_byte q sep = false -> no_occ sep a ->
  Index_from i (a +:+ String q t) sep = Index_from (i + String.length a + 1) t sep.
Proof.
  intros Hq. revert i. induction a as [|c a IH]; intros i Ha.
  - simpl in Ha. destruct Ha as [Ha _].
    unapp. cbn [Index_from].
    replace (String.prefix sep (String q t)) with false.
    + f_equal. simpl. lia.
    + symmetry. rewrite <- Ha.
      apply (str_prefix_app_foreign sep "" t q Hq).
  - destruct Ha as [Hp Ha].
    unapp. cbn [Index_from].
    replace (String.prefix sep (String c (a +:+ String q t))) with false.
    + rewrite IH by exact Ha. f_equal. simpl. lia.
    + symmetry. rewrite <- Hp.
      apply (str_prefix_app_foreign sep (String c a) t q Hq).
Qed.

(** Searching for a single byte: the first occurrence ends the longest
    prefix free of it. *)
Lemma Index_from_byte_hit (a t : string) (q : ascii) (i : nat) :
  no_occ (String q "") a ->
  Index_from i (a +:+ String q t) (String q "") = Z.of_nat (i + String.length a).
Proof.
  revert i. induction a as [|c a IH]; intros i Ha; unapp; cbn [Index_from].
  - rewrite str_prefix_byte. destruct (ascii_dec q q); [| congruence].
    f_equal. simpl. lia.
  - destruct Ha as [Hp Ha]. rewrite str_prefix_byte in Hp |- *.
    destruct (ascii_dec q c); [discriminate |].
    rewrite IH by exact Ha. f_equal. simpl. lia.
Qed.

Lemma Index_from_byte_found (s : string) (q : ascii) (i : nat) :
  Index_from i s (String q "") <> -1 ->
  exists a t, s = a +:+ String q t /\ no_occ (String q "") a /\
              Index_from i s (String q "") = Z.of_nat (i + String.length a).
Proof.
  revert i. induction s as [|c s IH]; intros i H.
  - simpl in H. congruence.
  - cbn [Index_from] in H |- *. rewrite str_prefix_byte in H |- *.
    destruct (ascii_dec q c) as [->|Hne].
    + exists "", s. unapp. simpl. repeat split; try reflexivity. f_equal. lia.
    + destruct (IH (S i) H) as (a & t & -> & Ha & Hi).
      exists (String c a), t. unapp. split; [reflexivity |]. split.
      * split; [| exact Ha]. rewrite str_prefix_byte.
        destruct (ascii_dec q c); [contradiction | reflexivity].
      * rewrite Hi. f_equal. simpl. lia.
Qed.

(** A prefix of a text free of the byte [q] is free of it. *)
Lemma no_occ_byte_take (s : string) (q : ascii) (n : nat) :
  no_occ (String q "") s -> no_occ (String q "") (take n s).
Proof.
  revert n. induction s as [|c s IH]; intros [|n] H; cbn [take no_occ] in *;
    try (split; [reflexivity | exact I]).
  destruct H as [Hp H]. split; [| now apply IH].
  rewrite str_prefix_byte in Hp |- *. exact Hp.
Qed.

(** *** Slicing *)

Lemma slice_from_app (a b : string) : slice_from (a +:+ b) (len a) = Done b.
Proof.
  unfold slice_from, slice.
  pose proof (len_nonneg a). pose proof (len_nonneg b). rewrite str_len_app.
  replace ((0 <=? len a) && (len a <=? len a + len b) && (len a + len b <=? len a + len b))
    with true by (symmetry; rewrite !andb_true_iff, !Z.leb_le; lia).
  f_equal. unfold len. rewrite Nat2Z.id, str_drop_app.
  apply str_take_all. lia.
Qed.

Lemma slice_to_app (a b : string) : slice_to (a +:+ b) (len a) = Done a.
Proof.
  unfold slice_to, slice.
  pose proof (len_nonneg a). pose proof (len_nonneg b). rewrite str_len_app.
  replace ((0 <=? 0) && (0 <=? len a) && (len a <=? len a + len b))
    with true by (symmetry; rewrite !andb_true_iff, !Z.leb_le; lia).
  f_equal. rewrite Z.sub_0_r. unfold len. rewrite Nat2Z.id. simpl.
  apply str_take_app_exact.
Qed.

Lemma slice_negative (s : string) (lo : Z) :
  slice s lo (-1) = Panic "slice bounds out of range".
Proof.
  unfold slice. destruct (0 <=? lo) eqn:H0; [| reflexivity].
  destruct (lo <=? -1) eqn:H1; [| reflexivity].
  apply Z.leb_le in H0, H1. lia.
Qed.

End GoStringFacts.

Import GoStringFacts.

Lemma Index_first_occurrence (s sep : string) (i : nat) (l : list nat) :
  occurrences sep s = i :: l -> Index s sep = Z.of_nat i.
Proof.
  unfold occurrences, Index. intros H. now rewrite Index_from_occurrences, H.
Qed.

(** The text between the marker and the first closing tag, cut at its
    first quote, when the address holds neither. *)
Lemma extract_after_marker (address t : string) :
  Contains address "'" = false ->
  Contains address "</a>" = false ->
  ~ no_occ "</a>" t ->
  (html_email ← slice (address +:+ String "'" t) 0 (Index (address +:+ String "'" t) "</a>");
   email ← slice_to html_email (Index html_email "'");
   mret email) = Done address.
Proof.
  intros Hq Ha Ht. apply Contains_false in Hq, Ha.
  unfold Index.
  rewrite (Index_from_skip address t "</a>" "'" 0 eq_refl Ha).
  destruct (Index_from_range t "</a>" (0 + String.length address + 1)) as [E|E].
  { apply Index_from_absent in E. contradiction. }
  set (e := Index_from (0 + String.length address + 1) t "</a>") in *.
  assert (He : Z.to_nat (e - 0) = (String.length address + S (Z.to_nat e - String.length address - 1))%nat) by lia.
  unfold slice.
  replace ((0 <=? 0) && (0 <=? e) && (e <=? len (address +:+ String "'" t))) with true.
  2:{ symmetry. rewrite !andb_true_iff, !Z.leb_le, str_len_app. unfold len in *. simpl. lia. }
  simpl drop. rewrite He, str_take_app. cbn [take].
  unfold mbind, outcome_bind.
  rewrite (Index_from_byte_hit address _ "'" 0 Hq).
  simpl Nat.add. fold (len address). now rewrite slice_to_app.
Qed.

(** C8. For an issue body that holds exactly one contact fragment, the
    marker, the address between single quotes, the end of the opening
    tag, any text and the closing anchor tag, [extractEmailFromIssue]
    returns the address: the text after the first marker, up to the next
    closing tag, then up to the next quote. An address, being that text,
    holds neither a quote nor a closing tag. *)
Theorem extractEmailFromIssue_fragment (pre address inner post : string) :
  occurrences mailto_marker (pre +:+ contact_fragment address inner +:+ post)
    = [String.length pre] ->
  Contains address "'" = false ->
  Contains address "</a>" = false ->
  extractEmailFromIssue (pre +:+ contact_fragment address inner +:+ post) = Done address.
Proof.
  intros Hocc Hq Ha. unfold extractEmailFromIssue.
  rewrite (Index_first_occurrence _ _ _ _ Hocc).
  unfold contact_fragment in *.
  set (t := String dq ">" +:+ inner +:+ "</a>" +:+ post).
  replace (pre +:+ (mailto_marker +:+ address +:+ String "'" (String dq ">") +:+ inner +:+ "</a>") +:+ post)
    with ((pre +:+ mailto_marker) +:+ (address +:+ String "'" t)).
  2:{ subst t. rewrite !str_app_assoc. unapp. reflexivity. }
  replace (Z.of_nat (String.length pre) + len mailto_marker) with (len (pre +:+ mailto_marker))
    by (rewrite str_len_app; reflexivity).
  rewrite slice_from_app. unfold mbind at 1, outcome_bind at 1.
  apply extract_after_marker; try assumption.
  subst t. replace (String dq ">" +:+ inner +:+ "</a>" +:+ post)
    with ((String dq ">" +:+ inner) +:+ "</a>" +:+ post) by (rewrite !str_app_assoc; reflexivity).
  apply occurs_in_app.
Qed.

Lemma extractEmailFromIssue_fragment_witness :
  extractEmailFromIssue
    ("Contact: " +:+ contact_fragment "bugs@example.org" "bugs@example.org" +:+ " thanks")
  = Done "bugs@example.org".
Proof.
  apply (extractEmailFromIssue_fragment "Contact: " "bugs@example.org" "bugs@example.org"
           " thanks"); reflexivity.
Defined.

(** ** More on strings *)

Lemma str_length_take (n : nat) (s : string) :
  String.length (take n s) = Nat.min n (String.length s).
Proof.
  revert s. induction n as [|n IH]; intros [|c s]; simpl; try reflexivity.
  now rewrite IH.
Qed.

Lemma str_take_app_le (a b : string) (n : nat) :
  (n <= String.length a)%nat -> take n (a +:+ b) = take n a.
Proof.
  revert n. induction a as [|c a IH]; intros [|n] H; unapp; simpl in *; try reflexivity; try lia.
  rewrite IH by lia. reflexivity.
Qed.

Lemma str_prefix_mono (sep x y : string) :
  String.prefix sep x = true -> String.prefix sep (x +:+ y) = true.
Proof.
  revert x. induction sep as [|a sep IH]; intros x H.
  - now destruct (x +:+ y).
  - destruct x as [|c x]; [discriminate |]. unapp. simpl in H |- *.
    destruct (ascii_dec a c); [now apply IH | discriminate].
Qed.

(** A text free of [sep] has its prefixes free of [sep]. *)
Lemma no_occ_app_l (sep a b : string) : no_occ sep (a +:+ b) -> no_occ sep a.
Proof.
  induction a as [|c a IH]; unapp; intros H.
  - split; [| exact I].
    destruct (String.prefix sep "") eqn:E; [| reflexivity].
    apply (str_prefix_mono sep "" b) in E. rewrite str_app_empty in E.
    destruct b; cbn [no_occ] in H; destruct H; congruence.
  - cbn [no_occ] in H |- *. destruct H as [Hp H]. split; [| now apply IH].
    destruct (String.prefix sep (String c a)) eqn:E; [| reflexivity].
    apply (str_prefix_mono sep (String c a) b) in E. rewrite str_app_cons in E. congruence.
Qed.

(** The part of a text before the first occurrence of [sep] is free of
    [sep]. *)
Lemma no_occ_before_Index_from (s sep : string) (i : nat) :
  String.prefix sep "" = false ->
  Index_from i s sep <> -1 ->
  no_occ sep (take (Z.to_nat (Index_from i s sep - Z.of_nat i)) s).
Proof.
  intros Hne. revert i. induction s as [|c s IH]; intros i H; cbn [Index_from] in *.
  - destruct (String.prefix sep ""); [discriminate | congruence].
  - destruct (String.prefix sep (String c s)) eqn:E.
    + rewrite Z.sub_diag. simpl. now split.
    + destruct (Index_from_range s sep (S i)) as [E'|E']; [congruence |].
      replace (Z.to_nat (Index_from (S i) s sep - Z.of_nat i))
        with (S (Z.to_nat (Index_from (S i) s sep - Z.of_nat (S i)))) by lia.
      cbn [take no_occ]. split; [| now apply IH].
      destruct (String.prefix sep (String c (take _ s))) eqn:E2; [| reflexivity].
      apply (str_prefix_mono _ _ (drop (Z.to_nat (Index_from (S i) s sep - Z.of_nat (S i))) s)) in E2.
      rewrite str_app_cons, str_take_drop in E2. congruence.
Qed.

Lemma no_occ_before_Index (s sep : string) :
  String.prefix sep "" = false -> 0 <= Index s sep ->
  no_occ sep (take (Z.to_nat (Index s sep)) s).
Proof.
  intros Hne H. unfold Index in *.
  pose proof (no_occ_before_Index_from s sep 0 Hne) as Hn.
  rewrite Z.sub_0_r in Hn. apply Hn. lia.
Qed.

(** The first occurrence is not after a known occurrence. *)
Lemma Index_from_app_le (a sep t : string) (i : nat) :
  Z.of_nat i <= Index_from i (a +:+ sep +:+ t) sep <= Z.of_nat i + len a.
Proof.
  revert i. induction a as [|c a IH]; intros i; unapp.
  - assert (Hp : String.prefix sep (sep +:+ t) = true) by apply str_prefix_app.
    destruct (sep +:+ t); cbn [Index_from]; rewrite Hp; unfold len; simpl; lia.
  - cbn [Index_from]. destruct (String.prefix sep (String c (a +:+ sep +:+ t))).
    + unfold len. simpl. lia.
    + specialize (IH (S i)). unfold len in *. simpl. lia.
Qed.

(** The call on a body whose first marker follows [pre]. *)
Lemma extract_at_marker (pre rest : string) (later : list nat) :
  occurrences mailto_marker (pre +:+ mailto_marker +:+ rest) = String.length pre :: later ->
  extractEmailFromIssue (pre +:+ mailto_marker +:+ rest) =
  (html_email ← slice rest 0 (Index rest "</a>");
   email ← slice_to html_email (Index html_email "'");
   mret email).
Proof.
  intros Hocc. unfold extractEmailFromIssue.
  rewrite (Index_first_occurrence _ _ _ _ Hocc).
  replace (Z.of_nat (String.length pre) + len mailto_marker) with (len (pre +:+ mailto_marker))
    by (rewrite str_len_app; reflexivity).
  now rewrite <- str_app_assoc, slice_from_app.
Qed.

Lemma slice_from_cases (s : string) (lo : Z) :
  slice_from s lo =
  if (0 <=? lo) && (lo <=? len s) then Done (drop (Z.to_nat lo) s)
  else Panic "slice bounds out of range".
Proof.
  unfold slice_from, slice. rewrite Z.leb_refl, andb_true_r.
  destruct ((0 <=? lo) && (lo <=? len s)); [| reflexivity].
  f_equal. apply str_take_all. rewrite str_length_drop. unfold len. lia.
Qed.

Lemma slice_to_cases (s : string) (hi : Z) :
  slice s 0 hi =
  if (0 <=? hi) && (hi <=? len s) then Done (take (Z.to_nat hi) s)
  else Panic "slice bounds out of range".
Proof. unfold slice. now rewrite Z.sub_0_r. Qed.

(** Cutting a text at its first quote: a panic when it has none, else
    the part before the quote. *)
Lemma cut_at_quote (html_email : string) :
  match slice_to html_email (Index html_email "'") with
  | Done email =>
      exists t, html_email = email +:+ String "'" t /\ Contains email "'" = false
  | Exit => False
  | Panic r => r = "slice bounds out of range" /\ Contains html_email "'" = false
  end.
Proof.
  destruct (Z.eq_dec (Index html_email "'") (-1)) as [E|E].
  - unfold slice_to. rewrite E, slice_negative. split; [reflexivity |].
    apply Contains_false. now apply (Index_from_absent _ _ 0).
  - destruct (Index_from_byte_found html_email "'" 0 E) as (a & t & -> & Ha & Hi).
    unfold Index. rewrite Hi. simpl Nat.add. fold (len a). rewrite slice_to_app.
    exists t. split; [reflexivity | now apply Contains_false].
Qed.




(** ** Running the monad *)

Ltac run :=
  unfold mbind, M_bind, mret, M_ret, emit, get_globals, put_globals, lift,
    log_Fatal, nil_dereference; simpl.

Lemma send_calls_app (a b : list event) : send_calls (a ++ b) = send_calls a ++ send_calls b.
Proof. apply flat_map_app. Qed.

Lemma comment_calls_app (a b : list event) :
  comment_calls (a ++ b) = comment_calls a ++ comment_calls b.
Proof. apply flat_map_app. Qed.

Lemma github_calls_app (a b : list event) :
  github_calls (a ++ b) = github_calls a ++ github_calls b.
Proof. apply List.filter_app. Qed.

Lemma error_logs_app (a b : list event) : error_logs (a ++ b) = error_logs a ++ error_logs b.
Proof. apply flat_map_app. Qed.

Lemma entry_events_silent (db : gmap string Z) (arr : list string) :
  send_calls (entry_events db arr) = [] /\ comment_calls (entry_events db arr) = [] /\
  github_calls (entry_events db arr) = [] /\ error_logs (entry_events db arr) = [].
Proof. induction arr as [|key arr IH]; simpl; tauto. Qed.

(** ** The store and the loop that lists it *)

Lemma GetKeys_bound (db : gmap string Z) :
  Forall (fun key => is_Some (db !! key)) (Rkv.GetKeys db).
Proof.
  apply Forall_forall. intros key Hkey. unfold Rkv.GetKeys in Hkey.
  apply list_elem_of_fmap in Hkey as [[k v] [-> Hkv]].
  apply elem_of_map_to_list in Hkv. simpl. eauto.
Qed.

Lemma print_entries_bound (db : gmap string Z) (arr : list string) (st : St) :
  Forall (fun key => is_Some (db !! key)) arr ->
  print_entries db arr st =
  (Done tt, {| globals := globals st; trace := trace st ++ entry_events db arr |}).
Proof.
  intros H. revert st. induction H as [|key arr [v Hv] _ IH]; intros st.
  - run. rewrite app_nil_r. now destruct st.
  - cbn [print_entries]. unfold Rkv.Get. rewrite Hv. run. rewrite IH. simpl.
    rewrite Hv. simpl. now rewrite <- app_assoc.
Qed.

Lemma print_entries_all (db : gmap string Z) (st : St) :
  print_entries db (Rkv.GetKeys db) st =
  (Done tt, {| globals := globals st;
               trace := trace st ++ entry_events db (Rkv.GetKeys db) |}).
Proof. apply print_entries_bound, GetKeys_bound. Qed.

(** ** [emailToComment] *)

Lemma emailToComment_opened (W : World) (comment in_reply_to : string) (st : St)
    (db : gmap string Z) :
  kv (globals st) = Some db ->
  emailToComment W comment in_reply_to st =
  (Done tt, {| globals := globals st;
               trace := trace st ++
                        emailToComment_events W (dryrun (globals st)) db comment |}).
Proof.
  intros Hkv. unfold emailToComment, emailToComment_events. run. rewrite Hkv.
  rewrite print_entries_all. simpl.
  destruct (Issues_Get W "usegalaxy.eu" "issues" 1); simpl;
    destruct (dryrun (globals st)); simpl;
    try destruct (Issues_CreateComment W "usegalaxy.eu" "issue-testing" 1 comment); simpl;
    repeat (rewrite <- ?app_assoc; simpl); reflexivity.
Qed.

Lemma emailToComment_nil (W : World) (comment in_reply_to : string) (st : St) :
  kv (globals st) = None ->
  emailToComment W comment in_reply_to st =
  (Panic "invalid memory address or nil pointer dereference",
   {| globals := globals st; trace := trace st ++ [Log Info "Comment Hanlder"] |}).
Proof. intros Hkv. unfold emailToComment. run. now rewrite Hkv. Qed.

(** ** [getNameForUser] and [commentToEmail] *)

Ltac quiet_trace :=
  rewrite ?send_calls_app, ?comment_calls_app, ?error_logs_app; simpl;
  rewrite ?app_nil_r.

Lemma getNameForUser_frame (W : World) (username : string) (st : St) :
  dryrun (globals (getNameForUser W username st).2) = dryrun (globals st) /\
  kv (globals (getNameForUser W username st).2) = kv (globals st) /\
  send_calls (trace (getNameForUser W username st).2) = send_calls (trace st) /\
  comment_calls (trace (getNameForUser W username st).2) = comment_calls (trace st) /\
  error_logs (trace (getNameForUser W username st).2) = error_logs (trace st).
Proof.
  unfold getNameForUser, cache_Set. run.
  destruct (gh_cache (globals st) !! username); run.
  - quiet_trace. tauto.
  - destruct (Users_Get W username) as [[name|]|err]; run;
      rewrite <- ?app_assoc; quiet_trace; tauto.
Qed.

Lemma getNameForUser_miss_failed (W : World) (username err : string) (st : St) :
  gh_cache (globals st) !! username = None ->
  Users_Get W username = Err err ->
  getNameForUser W username st =
  (Exit, {| globals := globals st;
            trace := trace st ++ [UsersGet username; Log Fatal err] |}).
Proof.
  intros Hmiss Herr. unfold getNameForUser. run. rewrite Hmiss. run. rewrite Herr.
  run. now rewrite <- app_assoc.
Qed.

Lemma commentToEmail_dry (W : World) (author title comment reply_to : string) (st : St) :
  dryrun (globals st) = true ->
  commentToEmail W author title comment reply_to st =
  (Done "", {| globals := globals st; trace := trace st ++ [Log Info "EMail Hanlder"] |}).
Proof. intros Hdry. unfold commentToEmail. run. now rewrite Hdry. Qed.

Lemma commentToEmail_sent (W : World) (author title comment reply_to resp id : string)
    (st : St) :
  dryrun (globals st) = false ->
  mg_Send W (author +:+ " <bugs@usegalaxy.eu>") ("Re: " +:+ title) comment reply_to
    = Ok (resp, id) ->
  commentToEmail W author title comment reply_to st =
  (Done id, {| globals := globals st;
               trace := trace st ++
                 [Log Info "EMail Hanlder";
                  MgSend (author +:+ " <bugs@usegalaxy.eu>") ("Re: " +:+ title) comment reply_to;
                  Log Info "Mailgun"] |}).
Proof.
  intros Hdry Hsend. unfold commentToEmail. run. rewrite Hdry. run. rewrite Hsend.
  run. now rewrite <- !app_assoc.
Qed.

Lemma commentToEmail_failed (W : World) (author title comment reply_to err : string)
    (st : St) :
  dryrun (globals st) = false ->
  mg_Send W (author +:+ " <bugs@usegalaxy.eu>") ("Re: " +:+ title) comment reply_to
    = Err err ->
  commentToEmail W author title comment reply_to st =
  (Exit, {| globals := globals st;
            trace := trace st ++
              [Log Info "EMail Hanlder";
               MgSend (author +:+ " <bugs@usegalaxy.eu>") ("Re: " +:+ title) comment reply_to;
               Log Fatal err] |}).
Proof.
  intros Hdry Hsend. unfold commentToEmail. run. rewrite Hdry. run. rewrite Hsend.
  run. now rewrite <- !app_assoc.
Qed.

(** ** The handlers past their checks *)

Lemma githubWebHook_created (W : World) (req : Request) (p : payload) (st : St) :
  comment_created req p ->
  githubWebHook W req st =
  (author ← getNameForUser W (Login (comment_User (Comment p)));
   reply_to ← lift (extractEmailFromIssue (issue_Body (Issue p)));
   response ← commentToEmail W author (Title (Issue p)) (comment_Body (Comment p)) reply_to;
   g ← get_globals;
   _ ← (if negb (dryrun g)
        then if negb (String.eqb response "")
             then kv_Put response (Number (Issue p))
             else emit (Log Error "Response to message ID was nil but not dry-run")
        else mret tt);
   mret (w_Write "OK")) st.
Proof.
  intros (Hm & Hev & Hct & Hbody & Hact). unfold githubWebHook.
  rewrite Hm, Hev, Hct, Hbody, Hact. reflexivity.
Qed.

Lemma mailgunWebHook_posted (W : World) (req : Request) (st : St) :
  form_posted req ->
  mailgunWebHook W req st =
  (from0 ← lift (first_of (PostForm_at req "From"));
   html_body0 ← lift (first_of (PostForm_at req "stripped-html"));
   in_reply_to0 ← lift (first_of (PostForm_at req "In-Reply-To"));
   _ ← emailToComment W (quoted_reply from0 html_body0) in_reply_to0;
   mret (w_Write "OK")) st.
Proof. intros [Hm Hparse]. unfold mailgunWebHook. now rewrite Hm, Hparse. Qed.

Lemma mailgunWebHook_opened (W : World) (req : Request) (st : St)
    (from html_body in_reply_to : string) (db : gmap string Z) :
  form_posted req -> form_fields req from html_body in_reply_to ->
  kv (globals st) = Some db ->
  mailgunWebHook W req st =
  (Done (w_Write "OK"),
   {| globals := globals st;
      trace := trace st ++ emailToComment_events W (dryrun (globals st)) db
                             (quoted_reply from html_body) |}).
Proof.
  intros Hp (Hf & Hh & Hr) Hkv. rewrite mailgunWebHook_posted by exact Hp.
  rewrite Hf, Hh, Hr. unfold mbind, M_bind, lift.
  now rewrite (emailToComment_opened W _ _ st db Hkv).
Qed.

(** ** Dry-run *)

Lemma nothing_delivered_refl (st : St) : nothing_delivered st st.
Proof. now repeat split. Qed.

Lemma nothing_delivered_log (st st' : St) (lvl : level) (msg : string) :
  nothing_delivered st st' ->
  nothing_delivered st {| globals := globals st'; trace := trace st' ++ [Log lvl msg] |}.
Proof. intros (Hk & Hs & Hc). repeat split; simpl; quiet_trace; assumption. Qed.

Lemma getNameForUser_delivers_nothing (W : World) (username : string) (st : St) :
  nothing_delivered st (getNameForUser W username st).2.
Proof. destruct (getNameForUser_frame W username st) as (_ & ? & ? & ? & _). now repeat split. Qed.

Lemma githubWebHook_dry (W : World) (req : Request) (st : St) :
  dryrun (globals st) = true ->
  nothing_delivered st (githubWebHook W req st).2.
Proof.
  intros Hdry. unfold githubWebHook.
  destruct (negb (String.eqb (Method req) "POST")); [apply nothing_delivered_refl |].
  destruct (String.eqb (Header_Get req "X-GitHub-Event") "ping");
    [apply nothing_delivered_log, nothing_delivered_refl |].
  destruct (negb (String.eqb (Header_Get req "X-GitHub-Event") "issue_comment"));
    [apply nothing_delivered_log, nothing_delivered_refl |].
  destruct (negb (Contains (Header_Get req "Content-Type") "json"));
    [apply nothing_delivered_log, nothing_delivered_refl |].
  destruct (Body req) as [err|err|p];
    try (apply nothing_delivered_log, nothing_delivered_refl).
  destruct (negb (String.eqb (Action p) "created"));
    [apply nothing_delivered_log, nothing_delivered_refl |].
  pose proof (getNameForUser_delivers_nothing W (Login (comment_User (Comment p))) st) as Hname.
  destruct (getNameForUser_frame W (Login (comment_User (Comment p))) st) as (Hd & _).
  unfold mbind at 1, M_bind at 1.
  destruct (getNameForUser W (Login (comment_User (Comment p))) st) as [[author| |reason] st1];
    simpl in Hname, Hd; try exact Hname.
  unfold mbind at 1, M_bind at 1, lift.
  destruct (extractEmailFromIssue (issue_Body (Issue p))) as [reply_to| |reason];
    try exact Hname.
  unfold mbind at 1, M_bind at 1.
  rewrite commentToEmail_dry by congruence.
  run. rewrite Hd, Hdry. simpl. now apply nothing_delivered_log.
Qed.

Lemma emailToComment_dry (W : World) (comment in_reply_to : string) (st : St) :
  dryrun (globals st) = true ->
  nothing_delivered st (emailToComment W comment in_reply_to st).2.
Proof.
  intros Hdry. destruct (kv (globals st)) as [db|] eqn:Hkv.
  - rewrite (emailToComment_opened W _ _ st db Hkv), Hdry.
    unfold emailToComment_events.
    destruct (entry_events_silent db (Rkv.GetKeys db)) as (Hs & Hc & _).
    destruct (Issues_Get W "usegalaxy.eu" "issues" 1);
      repeat split; simpl;
      repeat (rewrite ?send_calls_app, ?comment_calls_app, ?Hs, ?Hc; simpl);
      now rewrite ?app_nil_r.
  - rewrite (emailToComment_nil W _ _ st Hkv).
    apply nothing_delivered_log, nothing_delivered_refl.
Qed.

Lemma mailgunWebHook_dry (W : World) (req : Request) (st : St) :
  dryrun (globals st) = true ->
  nothing_delivered st (mailgunWebHook W req st).2.
Proof.
  intros Hdry. unfold mailgunWebHook.
  destruct (negb (String.eqb (Method req) "POST")); [apply nothing_delivered_refl |].
  destruct (ParseForm req); [apply nothing_delivered_refl |].
  unfold mbind, M_bind, lift.
  destruct (first_of (PostForm_at req "From")); try apply nothing_delivered_refl.
  destruct (first_of (PostForm_at req "stripped-html")); try apply nothing_delivered_refl.
  destruct (first_of (PostForm_at req "In-Reply-To")) as [irt| |];
    try apply nothing_delivered_refl.
  pose proof (emailToComment_dry W (quoted_reply a a0) irt st Hdry) as H.
  unfold quoted_reply in H.
  destruct (emailToComment W _ irt st) as [[[]| |reason] st1]; exact H.
Qed.

(** ** A comment that is mailed *)

Lemma githubWebHook_delivered (W : World) (req : Request) (p : payload) (st st1 : St)
    (author address resp id : string) (db : gmap string Z) :
  comment_created req p ->
  dryrun (globals st) = false ->
  kv (globals st) = Some db ->
  getNameForUser W (Login (comment_User (Comment p))) st = (Done author, st1) ->
  extractEmailFromIssue (issue_Body (Issue p)) = Done address ->
  mg_Send W (author +:+ " <bugs@usegalaxy.eu>") ("Re: " +:+ Title (Issue p))
    (comment_Body (Comment p)) address = Ok (resp, id) ->
  id <> "" ->
  githubWebHook W req st =
  (Done (w_Write "OK"),
   {| globals := {| dryrun := false;
                    kv := Some (<[id := Number (Issue p)]> db);
                    gh_cache := gh_cache (globals st1) |};
      trace := trace st1 ++
        [Log Info "EMail Hanlder";
         MgSend (author +:+ " <bugs@usegalaxy.eu>") ("Re: " +:+ Title (Issue p))
           (comment_Body (Comment p)) address;
         Log Info "Mailgun"] |}).
Proof.
  intros Hreq Hdry Hkv Hname Haddr Hsend Hid.
  destruct (getNameForUser_frame W (Login (comment_User (Comment p))) st) as (Hd & Hk & _).
  rewrite Hname in Hd, Hk. simpl in Hd, Hk.
  rewrite (githubWebHook_created W req p st Hreq).
  unfold mbind at 1, M_bind at 1. rewrite Hname.
  unfold mbind at 1, M_bind at 1, lift. rewrite Haddr.
  unfold mbind at 1, M_bind at 1.
  rewrite (commentToEmail_sent W author _ _ address resp id st1) by congruence.
  apply String.eqb_neq in Hid. unfold kv_Put. run.
  rewrite Hd, Hdry. simpl. rewrite Hid. simpl. rewrite Hk, Hkv. simpl.
  now rewrite Hd, Hdry.
Qed.

Lemma Get_insert (db : gmap string Z) (key : string) (value : Z) :
  Rkv.Get key (<[key := value]> db) = Ok value.
Proof. unfold Rkv.Get. now rewrite lookup_insert_eq. Qed.

Lemma Get_insert_other (db : gmap string Z) (key other : string) (value : Z) :
  other <> key -> Rkv.Get other (<[key := value]> db) = Rkv.Get other db.
Proof. intros Hne. unfold Rkv.Get. now rewrite lookup_insert_ne. Qed.

(** ** Start-up *)

(** [app.Action] never assigns the package-level [kv]: a process started
    by [main] serves its requests with a nil store handle. *)
Lemma app_Action_keeps_kv (flag_dryrun : bool) (opened : result (gmap string Z)) (st : St) :
  kv (globals (app_Action flag_dryrun opened st).2) = kv (globals st).
Proof.
  destruct opened as [kv_local|err]; unfold app_Action; [| reflexivity].
  unfold mbind at 1, M_bind at 1. now rewrite print_entries_all.
Qed.

Lemma main_kv_nil (flag_dryrun : bool) (opened : result (gmap string Z)) :
  kv (globals (app_Action flag_dryrun opened (start zero_globals)).2) = None.
Proof. now rewrite app_Action_keeps_kv. Qed.

(** * The claims *)

Import Scenario.

(** ** Tracker events other than a created comment *)

(** C10. A tracker event that passes the checks on method, event type,
    content type and body, and whose action is not the creation of a
    comment, is answered with status 200; the only effect is one log
    entry: no mail is sent, no provider is called and the package-level
    variables, the store among them, stay as they were. *)
Theorem githubWebHook_ignores_other_actions (W : World) (req : Request) (p : payload)
    (st : St) :
  Method req = "POST" ->
  Header_Get req "X-GitHub-Event" = "issue_comment" ->
  Contains (Header_Get req "Content-Type") "json" = true ->
  Body req = Decoded p ->
  Action p <> "created" ->
  (githubWebHook W req st).1 = Done {| status := 200; content := "OK" +:+ String "010" "" |} /\
  globals (githubWebHook W req st).2 = globals st /\
  trace (githubWebHook W req st).2 =
    trace st ++ [Log Info "Deleting/Editing comments is not supported"].
Proof.
  intros Hm Hev Hct Hbody Hact. apply String.eqb_neq in Hact.
  unfold githubWebHook. rewrite Hm, Hev, Hct, Hbody, Hact. simpl. now repeat split.
Qed.

Lemma githubWebHook_ignores_other_actions_witness :
  (githubWebHook up (tracker_request "edited" 7) (opened false ∅)).1
    = Done {| status := 200; content := "OK" +:+ String "010" "" |} /\
  globals (githubWebHook up (tracker_request "edited" 7) (opened false ∅)).2
    = globals (opened false ∅) /\
  trace (githubWebHook up (tracker_request "edited" 7) (opened false ∅)).2
    = trace (opened false ∅) ++ [Log Info "Deleting/Editing comments is not supported"].
Proof.
  apply (githubWebHook_ignores_other_actions up (tracker_request "edited" 7)
           (comment_event "edited" 7) (opened false ∅));
    [reflexivity | reflexivity | reflexivity | reflexivity | discriminate].
Defined.

(** ** The text of a comment made from a mail *)

(** C9, as the code has it. The comment submitted to the tracker is the
    From value, then the nine bytes of a space, the word wrote, a colon, a
    space and two newlines, then the stripped-html value: a space stands
    between the colon and the newlines. *)
Theorem mailgunWebHook_comment_text (W : World) (req : Request) (st : St)
    (from html_body in_reply_to : string) (db : gmap string Z) :
  form_posted req ->
  form_fields req from html_body in_reply_to ->
  kv (globals st) = Some db ->
  dryrun (globals st) = false ->
  (comment_calls (trace (mailgunWebHook W req st).2)).*2 =
  (comment_calls (trace st)).*2 ++
  [from +:+ " wrote: " +:+ String "010" (String "010" html_body)].
Proof.
  intros Hp Hf Hkv Hdry.
  rewrite (mailgunWebHook_opened W req st from html_body in_reply_to db Hp Hf Hkv).
  rewrite Hdry. unfold emailToComment_events. simpl.
  destruct (entry_events_silent db (Rkv.GetKeys db)) as (_ & Hc & _).
  destruct (Issues_Get W "usegalaxy.eu" "issues" 1);
    destruct (Issues_CreateComment W "usegalaxy.eu" "issue-testing" 1 (quoted_reply from html_body));
    repeat (rewrite ?comment_calls_app, ?Hc; simpl);
    now rewrite fmap_app.
Qed.

Lemma mailgunWebHook_comment_text_witness :
  (comment_calls (trace (mailgunWebHook up (reply "a@x.org" "hi" "m-100")
                           (opened false (<["m-100" := 7]> ∅))).2)).*2 =
  (comment_calls (trace (opened false (<["m-100" := 7]> ∅)))).*2 ++
  ["a@x.org" +:+ " wrote: " +:+ String "010" (String "010" "hi")].
Proof.
  apply (mailgunWebHook_comment_text up (reply "a@x.org" "hi" "m-100")
           (opened false (<["m-100" := 7]> ∅)) "a@x.org" "hi" "m-100" (<["m-100" := 7]> ∅));
    repeat split; reflexivity.
Defined.

(** C9 as stated fails: the submitted text differs from the From value
    followed by a space, the word wrote, a colon and two newlines. *)
Lemma comment_text_has_space_after_colon :
  (comment_calls (trace (mailgunWebHook up (reply "a@x.org" "hi" "m-100")
                           (opened false (<["m-100" := 7]> ∅))).2)).*2
  <> ["a@x.org" +:+ " wrote:" +:+ String "010" (String "010" "hi")].
Proof. vm_compute. discriminate. Qed.

(** ** The issue a mail is attributed to *)

(** C1, on the code. [emailToComment] never reads its [in_reply_to]
    argument and never looks a key up: the issue number is the constant 1.
    With the store open and holding m-100 for issue 7, the reply to m-100
    is posted on issue 1, and the reply to the unknown m-unknown is posted
    on issue 1 as well and answered 200. With the nil store handle of a
    process started by [main], the reply ends in a panic. *)
Theorem emailToComment_ignores_in_reply_to :
  (forall (W : World) (comment r1 r2 : string) (st : St),
     emailToComment W comment r1 st = emailToComment W comment r2 st) /\
  Rkv.Get "m-100" (<["m-100" := 7]> ∅) = Ok 7 /\
  comment_calls (trace (mailgunWebHook up (reply "a@x.org" "hi" "m-100")
                          (opened false (<["m-100" := 7]> ∅))).2)
    = [(1, quoted_reply "a@x.org" "hi")] /\
  Rkv.Get "m-unknown" (<["m-100" := 7]> ∅) = Err "key not found" /\
  (mailgunWebHook up (reply "a@x.org" "hi" "m-unknown")
     (opened false (<["m-100" := 7]> ∅))).1 = Done (w_Write "OK") /\
  comment_calls (trace (mailgunWebHook up (reply "a@x.org" "hi" "m-unknown")
                          (opened false (<["m-100" := 7]> ∅))).2)
    = [(1, quoted_reply "a@x.org" "hi")] /\
  (mailgunWebHook up (reply "a@x.org" "hi" "m-unknown") (unopened false)).1
    = Panic "invalid memory address or nil pointer dereference".
Proof. split; [reflexivity |]. vm_compute. now repeat split. Qed.

(** ** Writing a correlation *)

(** C5. After a created comment on an issue is mailed with a non-empty
    message id, the store gives that issue number for the id, and a key
    that was not in the store and is not the id is still not found; the
    empty store finds no key. *)
Theorem correlation_round_trip (W : World) (req : Request) (p : payload)
    (st st1 : St) (author address resp id : string) (db : gmap string Z) :
  comment_created req p ->
  dryrun (globals st) = false ->
  kv (globals st) = Some db ->
  getNameForUser W (Login (comment_User (Comment p))) st = (Done author, st1) ->
  extractEmailFromIssue (issue_Body (Issue p)) = Done address ->
  mg_Send W (author +:+ " <bugs@usegalaxy.eu>") ("Re: " +:+ Title (Issue p))
    (comment_Body (Comment p)) address = Ok (resp, id) ->
  id <> "" ->
  (exists db', kv (globals (githubWebHook W req st).2) = Some db' /\
     Rkv.Get id db' = Ok (Number (Issue p)) /\
     forall key, key <> id -> db !! key = None -> Rkv.Get key db' = Err "key not found") /\
  (forall key, Rkv.Get key ∅ = Err "key not found").
Proof.
  intros Hreq Hdry Hkv Hname Haddr Hsend Hid. split.
  - rewrite (githubWebHook_delivered W req p st st1 author address resp id db) by assumption.
    exists (<[id := Number (Issue p)]> db). split; [reflexivity |].
    split; [apply Get_insert |].
    intros key Hne Hnone. rewrite Get_insert_other by exact Hne.
    unfold Rkv.Get. now rewrite Hnone.
  - intros key. unfold Rkv.Get. now rewrite lookup_empty.
Qed.

Lemma correlation_round_trip_witness :
  (exists db', kv (globals (githubWebHook
                   {| Users_Get := Users_Get up; Issues_Get := Issues_Get up;
                      Issues_CreateComment := Issues_CreateComment up;
                      mg_Send := fun _ _ _ _ => Ok ("Queued. Thank you.", "msg-1") |}
                   (tracker_request "created" 42) (opened false ∅)).2) = Some db' /\
     Rkv.Get "msg-1" db' = Ok 42 /\
     forall key, key <> "msg-1" -> (∅ : gmap string Z) !! key = None ->
                 Rkv.Get key db' = Err "key not found") /\
  (forall key, Rkv.Get key ∅ = Err "key not found").
Proof.
  apply (correlation_round_trip
           {| Users_Get := Users_Get up; Issues_Get := Issues_Get up;
              Issues_CreateComment := Issues_CreateComment up;
              mg_Send := fun _ _ _ _ => Ok ("Queued. Thank you.", "msg-1") |}
           (tracker_request "created" 42) (comment_event "created" 42)
           (opened false ∅)
           (getNameForUser up "alice" (opened false ∅)).2
           "Alice A." "a@x.org" "Queued. Thank you." "msg-1" ∅);
    [repeat split; reflexivity | reflexivity | reflexivity | reflexivity
    | reflexivity | reflexivity | discriminate].
Defined.

(** ** Providers that fail *)

(** C4, as the code has it. No provider call is repeated. When the
    identity lookup fails on a cache miss, or Mailgun refuses the mail, the
    error is logged with [log.Fatal] and the process exits: no response is
    written. When the tracker refuses the comment, the error is logged and
    the request is answered 200. *)
Theorem provider_failure_outcomes :
  (forall (W : World) (req : Request) (p : payload) (st : St) (err : string),
     comment_created req p ->
     gh_cache (globals st) !! Login (comment_User (Comment p)) = None ->
     Users_Get W (Login (comment_User (Comment p))) = Err err ->
     githubWebHook W req st =
     (Exit, {| globals := globals st;
               trace := trace st ++
                 [UsersGet (Login (comment_User (Comment p))); Log Fatal err] |})) /\
  (forall (W : World) (req : Request) (p : payload) (st st1 : St)
          (author address err : string),
     comment_created req p ->
     dryrun (globals st) = false ->
     getNameForUser W (Login (comment_User (Comment p))) st = (Done author, st1) ->
     extractEmailFromIssue (issue_Body (Issue p)) = Done address ->
     mg_Send W (author +:+ " <bugs@usegalaxy.eu>") ("Re: " +:+ Title (Issue p))
       (comment_Body (Comment p)) address = Err err ->
     githubWebHook W req st =
     (Exit, {| globals := globals st1;
               trace := trace st1 ++
                 [Log Info "EMail Hanlder";
                  MgSend (author +:+ " <bugs@usegalaxy.eu>") ("Re: " +:+ Title (Issue p))
                    (comment_Body (Comment p)) address;
                  Log Fatal err] |})) /\
  (forall (W : World) (req : Request) (st : St) (from html_body in_reply_to err : string)
          (db : gmap string Z),
     form_posted req ->
     form_fields req from html_body in_reply_to ->
     kv (globals st) = Some db ->
     dryrun (globals st) = false ->
     Issues_CreateComment W "usegalaxy.eu" "issue-testing" 1 (quoted_reply from html_body)
       = Some err ->
     (mailgunWebHook W req st).1 = Done (w_Write "OK") /\
     comment_calls (trace (mailgunWebHook W req st).2)
       = comment_calls (trace st) ++ [(1, quoted_reply from html_body)] /\
     last (trace (mailgunWebHook W req st).2) = Some (Log Error err)).
Proof.
  repeat split.
  - intros W req p st err Hreq Hmiss Herr.
    rewrite (githubWebHook_created W req p st Hreq).
    unfold mbind at 1, M_bind at 1.
    now rewrite (getNameForUser_miss_failed W _ err st Hmiss Herr).
  - intros W req p st st1 author address err Hreq Hdry Hname Haddr Hsend.
    destruct (getNameForUser_frame W (Login (comment_User (Comment p))) st) as (Hd & _).
    rewrite Hname in Hd. simpl in Hd.
    rewrite (githubWebHook_created W req p st Hreq).
    unfold mbind at 1, M_bind at 1. rewrite Hname.
    unfold mbind at 1, M_bind at 1, lift. rewrite Haddr.
    unfold mbind at 1, M_bind at 1.
    now rewrite (commentToEmail_failed W author _ _ address err st1) by congruence.
  - now rewrite (mailgunWebHook_opened W req st from html_body in_reply_to db).
  - rewrite (mailgunWebHook_opened W req st from html_body in_reply_to db) by assumption.
    match goal with Hd : dryrun _ = false, Hc : Issues_CreateComment _ _ _ _ _ = _ |- _ =>
      unfold emailToComment_events; rewrite Hd, Hc end. simpl.
    destruct (entry_events_silent db (Rkv.GetKeys db)) as (_ & Hc' & _).
    destruct (Issues_Get W "usegalaxy.eu" "issues" 1);
      repeat (rewrite ?comment_calls_app, ?Hc'; simpl); reflexivity.
  - rewrite (mailgunWebHook_opened W req st from html_body in_reply_to db) by assumption.
    match goal with Hd : dryrun _ = false, Hc : Issues_CreateComment _ _ _ _ _ = _ |- _ =>
      unfold emailToComment_events; rewrite Hd, Hc end. simpl.
    destruct (Issues_Get W "usegalaxy.eu" "issues" 1); simpl;
      rewrite last_app_cons, last_cons, last_app_cons; reflexivity.
Qed.

Lemma provider_failure_outcomes_witness :
  githubWebHook identity_down (tracker_request "created" 7) (opened false ∅) =
    (Exit, {| globals := globals (opened false ∅);
              trace := trace (opened false ∅) ++ [UsersGet "alice"; Log Fatal "502 Bad Gateway"] |}) /\
  (githubWebHook mail_down (tracker_request "created" 7) (opened false ∅)).1 = Exit /\
  (mailgunWebHook tracker_down (reply "a@x.org" "hi" "m-100") (opened false ∅)).1
    = Done (w_Write "OK").
Proof.
  destruct provider_failure_outcomes as (Hid & Hmail & Htracker). split; [| split].
  - apply (Hid identity_down (tracker_request "created" 7) (comment_event "created" 7)
             (opened false ∅) "502 Bad Gateway");
      [repeat split; reflexivity | reflexivity | reflexivity].
  - rewrite (Hmail mail_down (tracker_request "created" 7) (comment_event "created" 7)
               (opened false ∅) (getNameForUser mail_down "alice" (opened false ∅)).2
               "Alice A." "a@x.org" "mailgun: 500");
      [reflexivity | repeat split; reflexivity | reflexivity | reflexivity
      | reflexivity | reflexivity].
  - apply (Htracker tracker_down (reply "a@x.org" "hi" "m-100") (opened false ∅)
             "a@x.org" "hi" "m-100" "github: 500" ∅);
      [split; reflexivity | repeat split; reflexivity | reflexivity | reflexivity
      | reflexivity].
Defined.

(** C4 as stated fails: a created comment whose author cannot be looked
    up, or whose mail Mailgun refuses, ends the process instead of being
    answered with a server error; a mail whose comment the tracker refuses
    is answered 200. *)
Lemma provider_failure_not_a_server_error :
  (githubWebHook identity_down (tracker_request "created" 7) (opened false ∅)).1 = Exit /\
  (githubWebHook mail_down (tracker_request "created" 7) (opened false ∅)).1 = Exit /\
  (mailgunWebHook tracker_down (reply "a@x.org" "hi" "m-100") (opened false ∅)).1
    = Done {| status := 200; content := "OK" |}.
Proof. vm_compute. now repeat split. Qed.

(** ** Dry-run *)

(** C6, as the code has it. With dry-run set, no request to either
    handler sends a mail, submits a comment or changes the store handle. A
    created comment whose author name is found and whose issue body yields
    an address is answered 200; a mail with its three fields, the store
    being open, is answered 200 after the issue was fetched from the
    tracker with [Issues.Get], a call that dry-run does not suppress. *)
Theorem dry_run_isolation (W : World) (req : Request) (st : St) :
  dryrun (globals st) = true ->
  nothing_delivered st (githubWebHook W req st).2 /\
  nothing_delivered st (mailgunWebHook W req st).2 /\
  (forall (p : payload) (author address : string) (st1 : St),
     comment_created req p ->
     getNameForUser W (Login (comment_User (Comment p))) st = (Done author, st1) ->
     extractEmailFromIssue (issue_Body (Issue p)) = Done address ->
     (githubWebHook W req st).1 = Done (w_Write "OK")) /\
  (forall (from html_body in_reply_to : string) (db : gmap string Z),
     form_posted req ->
     form_fields req from html_body in_reply_to ->
     kv (globals st) = Some db ->
     (mailgunWebHook W req st).1 = Done (w_Write "OK") /\
     github_calls (trace (mailgunWebHook W req st).2)
       = github_calls (trace st) ++ [IssuesGet "usegalaxy.eu" "issues" 1]).
Proof.
  intros Hdry. split; [now apply githubWebHook_dry |].
  split; [now apply mailgunWebHook_dry |]. split.
  - intros p author address st1 Hreq Hname Haddr.
    destruct (getNameForUser_frame W (Login (comment_User (Comment p))) st) as (Hd & _).
    rewrite Hname in Hd. simpl in Hd.
    rewrite (githubWebHook_created W req p st Hreq).
    unfold mbind at 1, M_bind at 1. rewrite Hname.
    unfold mbind at 1, M_bind at 1, lift. rewrite Haddr.
    unfold mbind at 1, M_bind at 1.
    rewrite commentToEmail_dry by congruence.
    run. now rewrite Hd, Hdry.
  - intros from html_body in_reply_to db Hp Hf Hkv.
    rewrite (mailgunWebHook_opened W req st from html_body in_reply_to db Hp Hf Hkv).
    split; [reflexivity |]. rewrite Hdry. unfold emailToComment_events. simpl.
    destruct (entry_events_silent db (Rkv.GetKeys db)) as (_ & _ & Hg & _).
    destruct (Issues_Get W "usegalaxy.eu" "issues" 1);
      repeat (rewrite ?github_calls_app, ?Hg; simpl); reflexivity.
Qed.

Lemma dry_run_isolation_witness :
  nothing_delivered (opened true (<["m-100" := 7]> ∅))
    (githubWebHook up (tracker_request "created" 7) (opened true (<["m-100" := 7]> ∅))).2 /\
  (githubWebHook up (tracker_request "created" 7) (opened true (<["m-100" := 7]> ∅))).1
    = Done (w_Write "OK") /\
  nothing_delivered (opened true (<["m-100" := 7]> ∅))
    (mailgunWebHook up (reply "a@x.org" "hi" "m-100") (opened true (<["m-100" := 7]> ∅))).2 /\
  (mailgunWebHook up (reply "a@x.org" "hi" "m-100") (opened true (<["m-100" := 7]> ∅))).1
    = Done (w_Write "OK").
Proof.
  destruct (dry_run_isolation up (tracker_request "created" 7)
              (opened true (<["m-100" := 7]> ∅)) eq_refl) as (Hquiet & _ & Hok & _).
  destruct (dry_run_isolation up (reply "a@x.org" "hi" "m-100")
              (opened true (<["m-100" := 7]> ∅)) eq_refl) as (_ & Hquiet' & _ & Hok').
  split; [exact Hquiet |]. split.
  - apply (Hok (comment_event "created" 7) "Alice A." "a@x.org"
             (getNameForUser up "alice" (opened true (<["m-100" := 7]> ∅))).2);
      [repeat split; reflexivity | reflexivity | reflexivity].
  - split; [exact Hquiet' |].
    apply (Hok' "a@x.org" "hi" "m-100" (<["m-100" := 7]> ∅));
      [split; reflexivity | repeat split; reflexivity | reflexivity].
Defined.

(** C6 as stated fails: with dry-run set and the store open, a mail with
    its three fields is answered 200 after a call to the tracker, the
    fetch of issue 1; with the nil store handle of a process started by
    [main] the same mail ends in a panic, not in a success. *)
Lemma dry_run_mail_calls_tracker :
  (mailgunWebHook up (reply "a@x.org" "hi" "m-100") (opened true (<["m-100" := 7]> ∅))).1
    = Done (w_Write "OK") /\
  github_calls (trace (mailgunWebHook up (reply "a@x.org" "hi" "m-100")
                         (opened true (<["m-100" := 7]> ∅))).2)
    = [IssuesGet "usegalaxy.eu" "issues" 1] /\
  (mailgunWebHook up (reply "a@x.org" "hi" "m-100") (unopened true)).1
    = Panic "invalid memory address or nil pointer dereference".
Proof. vm_compute. now repeat split. Qed.

(** ** Missing and empty form fields *)

(** C7, as the code has it. [mailgunWebHook] does not check the fields
    From, stripped-html and In-Reply-To. When one of them is missing, the
    handler panics on the index 0 before it reads the store or calls a
    provider, and writes no response. When the three are present, their
    first values, empty or not, are used as they are, and with the store
    open the request is answered 200. No such request gets another
    response and none ends the process. *)
Theorem mailgunWebHook_fields_unchecked (W : World) (req : Request) (st : St) :
  form_posted req ->
  (PostForm_at req "From" = [] \/ PostForm_at req "stripped-html" = [] \/
   PostForm_at req "In-Reply-To" = [] ->
   mailgunWebHook W req st = (Panic "index out of range", st)) /\
  (forall (from html_body in_reply_to : string) (db : gmap string Z),
     form_fields req from html_body in_reply_to ->
     kv (globals st) = Some db ->
     mailgunWebHook W req st =
     (Done (w_Write "OK"),
      {| globals := globals st;
         trace := trace st ++ emailToComment_events W (dryrun (globals st)) db
                                (quoted_reply from html_body) |})) /\
  match (mailgunWebHook W req st).1 with
  | Done r => r = w_Write "OK"
  | Exit => False
  | Panic _ => True
  end.
Proof.
  intros Hp. split; [| split].
  - intros Hmissing. rewrite (mailgunWebHook_posted W req st Hp).
    unfold mbind, M_bind, lift.
    destruct (PostForm_at req "From"), (PostForm_at req "stripped-html"),
      (PostForm_at req "In-Reply-To"); try reflexivity.
    destruct Hmissing as [|[|]]; discriminate.
  - intros from html_body in_reply_to db Hf Hkv.
    now apply (mailgunWebHook_opened W req st from html_body in_reply_to db).
  - rewrite (mailgunWebHook_posted W req st Hp). unfold mbind, M_bind, lift.
    destruct (PostForm_at req "From") as [|from ?]; try exact I.
    destruct (PostForm_at req "stripped-html") as [|html_body ?]; try exact I.
    destruct (PostForm_at req "In-Reply-To") as [|in_reply_to ?]; try exact I.
    simpl. destruct (kv (globals st)) as [db|] eqn:Hkv.
    + now rewrite (emailToComment_opened W _ _ st db Hkv).
    + now rewrite (emailToComment_nil W _ _ st Hkv).
Qed.

Lemma mailgunWebHook_fields_unchecked_witness :
  mailgunWebHook up (mail_request [("stripped-html", ["hi"]); ("In-Reply-To", ["m-100"])])
    (opened false ∅)
    = (Panic "index out of range", opened false ∅) /\
  (mailgunWebHook up (reply "" "hi" "m-100") (opened false ∅)).1 = Done (w_Write "OK").
Proof.
  split.
  - apply (mailgunWebHook_fields_unchecked up
             (mail_request [("stripped-html", ["hi"]); ("In-Reply-To", ["m-100"])])
             (opened false ∅)); [split; reflexivity | left; reflexivity].
  - destruct (mailgunWebHook_fields_unchecked up (reply "" "hi" "m-100") (opened false ∅))
      as (_ & Hpresent & _); [split; reflexivity |].
    rewrite (Hpresent "" "hi" "m-100" ∅); [reflexivity | repeat split; reflexivity | reflexivity].
Defined.

(** C7 as stated fails: a mail whose From field is empty is answered 200
    and its comment is submitted; a mail that has no From field ends in a
    panic, with no response. Neither gets a client-error response. *)
Lemma empty_or_missing_field_not_rejected :
  (mailgunWebHook up (reply "" "hi" "m-100") (opened false ∅)).1
    = Done {| status := 200; content := "OK" |} /\
  comment_calls (trace (mailgunWebHook up (reply "" "hi" "m-100") (opened false ∅)).2)
    = [(1, quoted_reply "" "hi")] /\
  (mailgunWebHook up (mail_request [("stripped-html", ["hi"]); ("In-Reply-To", ["m-100"])])
     (opened false ∅)).1 = Panic "index out of range".
Proof. vm_compute. now repeat split. Qed.

(** * Further properties of the code *)

(** ** More on [extractEmailFromIssue] *)

(** X1. First match wins. When the body holds several markers, the
    address that follows the first one is returned, whatever comes after
    the closing tag of the first contact block, further contact blocks
    included; the address holds neither a quote nor a closing tag. *)
Theorem extractEmailFromIssue_first_match (pre address inner post : string)
    (later : list nat) :
  occurrences mailto_marker (pre +:+ contact_fragment address inner +:+ post)
    = String.length pre :: later ->
  Contains address "'" = false ->
  Contains address "</a>" = false ->
  extractEmailFromIssue (pre +:+ contact_fragment address inner +:+ post) = Done address.
Proof.
  unfold contact_fragment. intros Hocc Hq Ha.
  set (t := String dq ">" +:+ inner +:+ "</a>" +:+ post).
  assert (Hbody : pre +:+ (mailto_marker +:+ address +:+ String "'" (String dq ">") +:+ inner +:+ "</a>") +:+ post
                  = pre +:+ mailto_marker +:+ (address +:+ String "'" t)).
  { subst t. rewrite !str_app_assoc. unapp. reflexivity. }
  rewrite Hbody in Hocc |- *. rewrite (extract_at_marker _ _ later Hocc).
  apply extract_after_marker; try assumption.
  subst t. replace (String dq ">" +:+ inner +:+ "</a>" +:+ post)
    with ((String dq ">" +:+ inner) +:+ "</a>" +:+ post) by (rewrite !str_app_assoc; reflexivity).
  apply occurs_in_app.
Qed.

Lemma extractEmailFromIssue_first_match_witness :
  extractEmailFromIssue
    ("To: " +:+ contact_fragment "a@x.org" "A" +:+ (" cc " +:+ contact_fragment "b@y.org" "B"))
  = Done "a@x.org".
Proof.
  apply (extractEmailFromIssue_first_match "To: " "a@x.org" "A"
           (" cc " +:+ contact_fragment "b@y.org" "B") [40%nat]); reflexivity.
Defined.

(** X2. Whatever [extractEmailFromIssue] returns holds neither a quote
    nor a closing anchor tag, and it is the text of the body that starts
    17 bytes after the offset given by the search for the marker (-1 when
    the marker is absent) and is followed by a quote. *)
Theorem extractEmailFromIssue_sound (body email : string) :
  extractEmailFromIssue body = Done email ->
  Contains email "'" = false /\
  Contains email "</a>" = false /\
  exists x t, body = x +:+ email +:+ String "'" t /\
              len x = Index body mailto_marker + 17.
Proof.
  unfold extractEmailFromIssue. change (len mailto_marker) with 17.
  rewrite slice_from_cases.
  destruct ((0 <=? Index body mailto_marker + 17) &&
            (Index body mailto_marker + 17 <=? len body)) eqn:Hlo; [| discriminate].
  apply andb_true_iff in Hlo as [Hlo1 Hlo2]. apply Z.leb_le in Hlo1, Hlo2.
  unfold mbind at 1, outcome_bind at 1.
  set (lo := Z.to_nat (Index body mailto_marker + 17)).
  set (r := drop lo body). rewrite slice_to_cases.
  destruct ((0 <=? Index r "</a>") && (Index r "</a>" <=? len r)) eqn:He; [| discriminate].
  apply andb_true_iff in He as [He1 He2]. apply Z.leb_le in He1, He2.
  unfold mbind at 1, outcome_bind at 1.
  set (e := Z.to_nat (Index r "</a>")).
  pose proof (cut_at_quote (take e r)) as Hcut.
  destruct (slice_to (take e r) (Index (take e r) "'")) as [email'| |reason];
    unfold mbind, outcome_bind, mret, outcome_ret; intros H; try discriminate.
  injection H as ->. destruct Hcut as (t & Ht & Hq).
  split; [exact Hq |]. split.
  - apply Contains_false. apply (no_occ_app_l _ _ (String "'" t)). rewrite <- Ht.
    now apply no_occ_before_Index.
  - exists (take lo body), (t +:+ drop e r). split.
    + rewrite <- (str_take_drop lo body) at 1. fold r.
      rewrite <- (str_take_drop e r) at 1. rewrite Ht, str_app_assoc. unapp. reflexivity.
    + unfold len in *. rewrite str_length_take. subst lo. lia.
Qed.

Lemma extractEmailFromIssue_sound_witness :
  Contains "a@x.org" "'" = false /\
  Contains "a@x.org" "</a>" = false /\
  exists x t, issue_body = x +:+ "a@x.org" +:+ String "'" t /\
              len x = Index issue_body mailto_marker + 17.
Proof. apply (extractEmailFromIssue_sound issue_body "a@x.org"). reflexivity. Defined.

(** X3. When the marker is found and the text after it has no closing
    anchor tag, or has no quote before its first closing tag, the call
    panics on a slice bound. *)
Theorem extractEmailFromIssue_unclosed (pre rest : string) (later : list nat) :
  occurrences mailto_marker (pre +:+ mailto_marker +:+ rest) = String.length pre :: later ->
  Contains rest "</a>" = false \/
  (exists a t, rest = a +:+ "</a>" +:+ t /\ Contains a "'" = false) ->
  extractEmailFromIssue (pre +:+ mailto_marker +:+ rest) = Panic "slice bounds out of range".
Proof.
  intros Hocc H. rewrite (extract_at_marker _ _ later Hocc).
  destruct H as [Hno | (a & t & -> & Hq)].
  - now rewrite (Contains_false_Index _ _ Hno), slice_negative.
  - pose proof (Index_from_app_le a "</a>" t 0) as He. fold (Index (a +:+ "</a>" +:+ t) "</a>") in He.
    rewrite slice_to_cases.
    destruct ((0 <=? Index (a +:+ "</a>" +:+ t) "</a>") &&
              (Index (a +:+ "</a>" +:+ t) "</a>" <=? len (a +:+ "</a>" +:+ t))); [| reflexivity].
    unfold mbind at 1, outcome_bind at 1.
    rewrite str_take_app_le by (unfold len in He; lia).
    assert (Hno : Index (take (Z.to_nat (Index (a +:+ "</a>" +:+ t) "</a>")) a) "'" = -1).
    { apply (Index_from_absent _ _ 0), no_occ_byte_take. now apply Contains_false. }
    unfold slice_to. now rewrite Hno, slice_negative.
Qed.

Lemma extractEmailFromIssue_unclosed_witness :
  extractEmailFromIssue ("Contact: " +:+ mailto_marker +:+ "a@x.org</a>' thanks")
  = Panic "slice bounds out of range".
Proof.
  apply (extractEmailFromIssue_unclosed "Contact: " "a@x.org</a>' thanks" []);
    [reflexivity | right; exists "a@x.org", "' thanks"; split; reflexivity].
Defined.

(** ** The paths of [githubWebHook] *)

(** A request is answered by one of the checks, with at most a log entry
    as effect, or it carries a created comment. *)
Lemma githubWebHook_gate (W : World) (req : Request) (st : St) :
  (exists r tr, githubWebHook W req st =
                  (Done r, {| globals := globals st; trace := trace st ++ tr |}) /\
                github_calls tr = [] /\ send_calls tr = [] /\ comment_calls tr = [] /\
                (status r = 200 \/ status r = 400 \/ status r = 405 \/
                 status r = 406 \/ status r = 500)) \/
  (exists p, comment_created req p).
Proof.
  unfold githubWebHook, comment_created.
  destruct (String.eqb (Method req) "POST") eqn:Hm; simpl.
  2:{ left. exists (http_Error (StatusText 405) 405), []. rewrite app_nil_r.
      destruct st. simpl. repeat split; auto. }
  destruct (String.eqb (Header_Get req "X-GitHub-Event") "ping") eqn:Hping.
  { left. eexists _, [_]. run. repeat split; auto. }
  destruct (String.eqb (Header_Get req "X-GitHub-Event") "issue_comment") eqn:Hev; simpl.
  2:{ left. eexists _, [_]. run. repeat split; auto. }
  destruct (Contains (Header_Get req "Content-Type") "json") eqn:Hct; simpl.
  2:{ left. eexists _, [_]. run. repeat split; auto. }
  destruct (Body req) as [err|err|p] eqn:Hbody.
  1,2: left; eexists _, [_]; run; repeat split; auto 6.
  destruct (String.eqb (Action p) "created") eqn:Hact; simpl.
  2:{ left. eexists _, [_]. run. repeat split; auto. }
  right. exists p. apply String.eqb_eq in Hm, Hev, Hact. now repeat split.
Qed.

(** Every way a created comment can go. *)
Lemma githubWebHook_created_cases (W : World) (req : Request) (p : payload) (st : St) :
  comment_created req p ->
  githubWebHook W req st =
  match getNameForUser W (Login (comment_User (Comment p))) st with
  | (Done author, st1) =>
      match extractEmailFromIssue (issue_Body (Issue p)) with
      | Done address =>
          if dryrun (globals st)
          then (Done (w_Write "OK"),
                {| globals := globals st1; trace := trace st1 ++ [Log Info "EMail Hanlder"] |})
          else
            let sent :=
              [Log Info "EMail Hanlder";
               MgSend (author +:+ " <bugs@usegalaxy.eu>") ("Re: " +:+ Title (Issue p))
                 (comment_Body (Comment p)) address] in
            match mg_Send W (author +:+ " <bugs@usegalaxy.eu>") ("Re: " +:+ Title (Issue p))
                    (comment_Body (Comment p)) address with
            | Err err =>
                (Exit, {| globals := globals st1;
                          trace := trace st1 ++ sent ++ [Log Fatal err] |})
            | Ok (resp, id) =>
                if String.eqb id ""
                then (Done (w_Write "OK"),
                      {| globals := globals st1;
                         trace := trace st1 ++ sent ++
                           [Log Info "Mailgun";
                            Log Error "Response to message ID was nil but not dry-run"] |})
                else
                  match kv (globals st) with
                  | None =>
                      (Panic "invalid memory address or nil pointer dereference",
                       {| globals := globals st1;
                          trace := trace st1 ++ sent ++ [Log Info "Mailgun"] |})
                  | Some db =>
                      (Done (w_Write "OK"),
                       {| globals := {| dryrun := false;
                                        kv := Some (<[id := Number (Issue p)]> db);
                                        gh_cache := gh_cache (globals st1) |};
                          trace := trace st1 ++ sent ++ [Log Info "Mailgun"] |})
                  end
            end
      | Exit => (Exit, st1)
      | Panic reason => (Panic reason, st1)
      end
  | (Exit, st1) => (Exit, st1)
  | (Panic reason, st1) => (Panic reason, st1)
  end.
Proof.
  intros Hreq. rewrite (githubWebHook_created W req p st Hreq).
  destruct (getNameForUser_frame W (Login (comment_User (Comment p))) st) as (Hd & Hk & _).
  unfold mbind at 1, M_bind at 1.
  destruct (getNameForUser W (Login (comment_User (Comment p))) st)
    as [[author| |reason] st1]; try reflexivity.
  simpl in Hd, Hk. unfold mbind at 1, M_bind at 1, lift.
  destruct (extractEmailFromIssue (issue_Body (Issue p))) as [address| |reason];
    try reflexivity.
  unfold mbind at 1, M_bind at 1.
  destruct (dryrun (globals st)) eqn:Hdry.
  - rewrite commentToEmail_dry by congruence. run. now rewrite Hd.
  - destruct (mg_Send W (author +:+ " <bugs@usegalaxy.eu>") ("Re: " +:+ Title (Issue p))
                (comment_Body (Comment p)) address) as [[resp id]|err] eqn:Hsend.
    + rewrite (commentToEmail_sent W author _ _ address resp id st1) by congruence.
      unfold kv_Put. run. rewrite Hd. simpl.
      destruct (String.eqb id ""); simpl.
      * now rewrite <- app_assoc.
      * rewrite Hk. destruct (kv (globals st)); simpl; [now rewrite Hd | reflexivity].
    + now rewrite (commentToEmail_failed W author _ _ address err st1) by congruence.
Qed.

(** ** More on [getNameForUser] *)

Lemma getNameForUser_calls (W : World) (username : string) (st : St) :
  github_calls (trace (getNameForUser W username st).2) = github_calls (trace st) \/
  github_calls (trace (getNameForUser W username st).2)
    = github_calls (trace st) ++ [UsersGet username].
Proof.
  unfold getNameForUser, cache_Set. run.
  destruct (gh_cache (globals st) !! username); run.
  - left. rewrite github_calls_app. simpl. apply app_nil_r.
  - right. destruct (Users_Get W username) as [[name|]|err]; run;
      rewrite <- ?app_assoc, github_calls_app; reflexivity.
Qed.

(** X4. Once a lookup has returned a name, the next lookup of the same
    user, made while the cache entry is live, returns that name from the
    cache: it calls nobody, whatever the provider would answer, and leaves
    the package-level variables as they are. *)
Theorem getNameForUser_cached_after (W W' : World) (username name : string) (st st1 : St) :
  getNameForUser W username st = (Done name, st1) ->
  getNameForUser W' username st1 =
  (Done name, {| globals := globals st1;
                 trace := trace st1 ++ [Log Info "Fetching Username"] |}).
Proof.
  unfold getNameForUser, cache_Set. run.
  destruct (gh_cache (globals st) !! username) as [cached|] eqn:Hc; run.
  - intros H. injection H as <- <-. simpl. now rewrite Hc.
  - destruct (Users_Get W username) as [[found|]|err]; run; intros H; try discriminate.
    injection H as <- <-. simpl. now rewrite lookup_insert_eq.
Qed.

Lemma getNameForUser_cached_after_witness :
  getNameForUser identity_down "alice" (getNameForUser up "alice" (opened false ∅)).2 =
  (Done "Alice A.",
   {| globals := globals (getNameForUser up "alice" (opened false ∅)).2;
      trace := trace (getNameForUser up "alice" (opened false ∅)).2
               ++ [Log Info "Fetching Username"] |}).
Proof.
  apply (getNameForUser_cached_after up identity_down "alice" "Alice A." (opened false ∅)).
  reflexivity.
Defined.

(** X5. A lookup changes nothing but the cache entry of the user it looks
    up: [dryrun], the store handle and the entries of the other users stay,
    a name that is returned is in the cache afterwards, and GitHub is
    called at most once. *)
Theorem getNameForUser_touches_one_entry (W : World) (username : string) (st : St) :
  dryrun (globals (getNameForUser W username st).2) = dryrun (globals st) /\
  kv (globals (getNameForUser W username st).2) = kv (globals st) /\
  (forall other, other <> username ->
     gh_cache (globals (getNameForUser W username st).2) !! other
       = gh_cache (globals st) !! other) /\
  (forall name, (getNameForUser W username st).1 = Done name ->
     gh_cache (globals (getNameForUser W username st).2) !! username = Some name) /\
  (length (github_calls (trace (getNameForUser W username st).2))
     <= S (length (github_calls (trace st))))%nat.
Proof.
  destruct (getNameForUser_frame W username st) as (Hd & Hk & _).
  split; [exact Hd |]. split; [exact Hk |]. split; [| split].
  - intros other Hne. unfold getNameForUser, cache_Set. run.
    destruct (gh_cache (globals st) !! username); run; [reflexivity |].
    destruct (Users_Get W username) as [[found|]|err]; run; try reflexivity.
    now rewrite lookup_insert_ne.
  - intros name. unfold getNameForUser, cache_Set. run.
    destruct (gh_cache (globals st) !! username) as [cached|] eqn:Hc; run.
    + intros H. injection H as <-. exact Hc.
    + destruct (Users_Get W username) as [[found|]|err]; run; intros H; try discriminate.
      injection H as <-. apply lookup_insert_eq.
  - destruct (getNameForUser_calls W username st) as [-> | ->];
      rewrite ?length_app; simpl; lia.
Qed.

(** ** More on [githubWebHook] *)

(** X6. A created comment by a user whose GitHub profile has no name: on
    a cache miss the handler panics on the nil [Name] after its one call to
    GitHub; no mail is sent, nothing is cached or stored, no response is
    written. *)
Theorem githubWebHook_nameless_author (W : World) (req : Request) (p : payload) (st : St) :
  comment_created req p ->
  gh_cache (globals st) !! Login (comment_User (Comment p)) = None ->
  Users_Get W (Login (comment_User (Comment p))) = Ok None ->
  githubWebHook W req st =
  (Panic "invalid memory address or nil pointer dereference",
   {| globals := globals st;
      trace := trace st ++ [UsersGet (Login (comment_User (Comment p)))] |}).
Proof.
  intros Hreq Hmiss Hnil. rewrite (githubWebHook_created W req p st Hreq).
  unfold mbind at 1, M_bind at 1. unfold getNameForUser. run.
  now rewrite Hmiss, Hnil.
Qed.

Lemma githubWebHook_nameless_author_witness :
  githubWebHook
    {| Users_Get := fun _ => Ok None; Issues_Get := Issues_Get up;
       Issues_CreateComment := Issues_CreateComment up; mg_Send := mg_Send up |}
    (tracker_request "created" 7) (opened false ∅) =
  (Panic "invalid memory address or nil pointer dereference",
   {| globals := globals (opened false ∅);
      trace := trace (opened false ∅) ++ [UsersGet "alice"] |}).
Proof.
  apply (githubWebHook_nameless_author _ (tracker_request "created" 7)
           (comment_event "created" 7) (opened false ∅));
    [repeat split; reflexivity | reflexivity | reflexivity].
Defined.

(** X7. With dry-run off, a created comment whose author name is found
    and whose issue body yields an address hands exactly one mail to
    Mailgun, whatever Mailgun answers and whatever the store handle is: the
    sender is the author name followed by the fixed address of the bridge,
    the subject is the issue title after the prefix Re, a colon and a
    space, the text is the comment body and the recipient is the extracted
    address. *)
Theorem githubWebHook_mail_fields (W : World) (req : Request) (p : payload) (st st1 : St)
    (author address : string) :
  comment_created req p ->
  dryrun (globals st) = false ->
  getNameForUser W (Login (comment_User (Comment p))) st = (Done author, st1) ->
  extractEmailFromIssue (issue_Body (Issue p)) = Done address ->
  send_calls (trace (githubWebHook W req st).2) =
  send_calls (trace st) ++
  [(author +:+ " <bugs@usegalaxy.eu>", "Re: " +:+ Title (Issue p),
    comment_Body (Comment p), address)].
Proof.
  intros Hreq Hdry Hname Haddr.
  destruct (getNameForUser_frame W (Login (comment_User (Comment p))) st) as (_ & _ & Hs & _).
  rewrite (githubWebHook_created_cases W req p st Hreq), Hname, Haddr, Hdry.
  rewrite Hname in Hs. simpl in Hs.
  destruct (mg_Send W _ _ _ address) as [[resp id]|err]; simpl;
    [destruct (String.eqb id ""); [| destruct (kv (globals st))] |];
    simpl; rewrite send_calls_app, Hs; reflexivity.
Qed.

Lemma githubWebHook_mail_fields_witness :
  send_calls (trace (githubWebHook mail_down (tracker_request "created" 7) (unopened false)).2) =
  send_calls (trace (unopened false)) ++
  [("Alice A." +:+ " <bugs@usegalaxy.eu>", "Re: " +:+ "Bug", "hello", "a@x.org")].
Proof.
  apply (githubWebHook_mail_fields mail_down (tracker_request "created" 7)
           (comment_event "created" 7) (unopened false)
           (getNameForUser mail_down "alice" (unopened false)).2 "Alice A." "a@x.org");
    [repeat split; reflexivity | reflexivity | reflexivity | reflexivity].
Defined.

(** X8. When Mailgun accepts the mail and returns an empty message id,
    the handler logs an error, writes nothing to the store, whose handle
    it does not touch, and answers 200. *)
Theorem githubWebHook_empty_id (W : World) (req : Request) (p : payload) (st st1 : St)
    (author address resp : string) :
  comment_created req p ->
  dryrun (globals st) = false ->
  getNameForUser W (Login (comment_User (Comment p))) st = (Done author, st1) ->
  extractEmailFromIssue (issue_Body (Issue p)) = Done address ->
  mg_Send W (author +:+ " <bugs@usegalaxy.eu>") ("Re: " +:+ Title (Issue p))
    (comment_Body (Comment p)) address = Ok (resp, "") ->
  (githubWebHook W req st).1 = Done (w_Write "OK") /\
  kv (globals (githubWebHook W req st).2) = kv (globals st) /\
  error_logs (trace (githubWebHook W req st).2) =
    error_logs (trace st) ++ ["Response to message ID was nil but not dry-run"].
Proof.
  intros Hreq Hdry Hname Haddr Hsend.
  destruct (getNameForUser_frame W (Login (comment_User (Comment p))) st)
    as (_ & Hk & _ & _ & He).
  rewrite (githubWebHook_created_cases W req p st Hreq), Hname, Haddr, Hdry, Hsend.
  rewrite Hname in Hk, He. simpl in *.
  split; [reflexivity |]. split; [exact Hk |].
  now rewrite error_logs_app, He.
Qed.

Lemma githubWebHook_empty_id_witness :
  (githubWebHook
     {| Users_Get := Users_Get up; Issues_Get := Issues_Get up;
        Issues_CreateComment := Issues_CreateComment up;
        mg_Send := fun _ _ _ _ => Ok ("Queued.", "") |}
     (tracker_request "created" 7) (opened false ∅)).1 = Done (w_Write "OK") /\
  kv (globals (githubWebHook
     {| Users_Get := Users_Get up; Issues_Get := Issues_Get up;
        Issues_CreateComment := Issues_CreateComment up;
        mg_Send := fun _ _ _ _ => Ok ("Queued.", "") |}
     (tracker_request "created" 7) (opened false ∅)).2) = kv (globals (opened false ∅)) /\
  error_logs (trace (githubWebHook
     {| Users_Get := Users_Get up; Issues_Get := Issues_Get up;
        Issues_CreateComment := Issues_CreateComment up;
        mg_Send := fun _ _ _ _ => Ok ("Queued.", "") |}
     (tracker_request "created" 7) (opened false ∅)).2) =
    error_logs (trace (opened false ∅)) ++ ["Response to message ID was nil but not dry-run"].
Proof.
  apply (githubWebHook_empty_id _ (tracker_request "created" 7) (comment_event "created" 7)
           (opened false ∅) (getNameForUser up "alice" (opened false ∅)).2
           "Alice A." "a@x.org" "Queued.");
    [repeat split; reflexivity | reflexivity | reflexivity | reflexivity | reflexivity].
Defined.



(** X10. A created comment on an issue whose body has no marker and
    fewer than 16 bytes, the empty body for one, makes the handler panic
    on a slice bound, with dry-run on or off: the identity lookup has been
    made, no mail is sent and no response is written. *)
Theorem githubWebHook_short_body (W : World) (req : Request) (p : payload) (st st1 : St)
    (author : string) :
  comment_created req p ->
  getNameForUser W (Login (comment_User (Comment p))) st = (Done author, st1) ->
  Contains (issue_Body (Issue p)) mailto_marker = false ->
  len (issue_Body (Issue p)) < 16 ->
  githubWebHook W req st = (Panic "slice bounds out of range", st1).
Proof.
  intros Hreq Hname Hno Hlen.
  assert (Hex : extractEmailFromIssue (issue_Body (Issue p)) = Panic "slice bounds out of range").
  { unfold extractEmailFromIssue. rewrite (Contains_false_Index _ _ Hno).
    change (-1 + len mailto_marker) with 16. rewrite slice_from_cases.
    replace (16 <=? len (issue_Body (Issue p))) with false
      by (symmetry; apply Z.leb_gt; exact Hlen).
    reflexivity. }
  now rewrite (githubWebHook_created_cases W req p st Hreq), Hname, Hex.
Qed.

Lemma githubWebHook_short_body_witness :
  githubWebHook up
    {| Method := "POST";
       Header := Header (tracker_request "created" 7);
       Body := Decoded {| Action := "created";
                          Issue := {| issue_ID := 1; Number := 7; Title := "Bug";
                                      issue_User := alice; State := "open";
                                      issue_Body := "" |};
                          Comment := Comment (comment_event "created" 7);
                          Repository := Repository (comment_event "created" 7) |};
       ParseForm := None; PostForm := ∅ |}
    (opened true ∅)
  = (Panic "slice bounds out of range", (getNameForUser up "alice" (opened true ∅)).2).
Proof.
  apply (githubWebHook_short_body up _
           {| Action := "created";
              Issue := {| issue_ID := 1; Number := 7; Title := "Bug";
                          issue_User := alice; State := "open"; issue_Body := "" |};
              Comment := Comment (comment_event "created" 7);
              Repository := Repository (comment_event "created" 7) |}
           (opened true ∅) _ "Alice A.");
    [repeat split; reflexivity | reflexivity | reflexivity | reflexivity].
Defined.

(** X11. Whenever [githubWebHook] answers with a status other than 200,
    the status is 400, 405, 406 or 500 and the request had no effect
    beyond a log entry: no call to GitHub, no mail, and the package-level
    variables as before. *)
Theorem githubWebHook_rejection_is_inert (W : World) (req : Request) (st : St) (r : Response) :
  (githubWebHook W req st).1 = Done r ->
  status r <> 200 ->
  (status r = 400 \/ status r = 405 \/ status r = 406 \/ status r = 500) /\
  globals (githubWebHook W req st).2 = globals st /\
  github_calls (trace (githubWebHook W req st).2) = github_calls (trace st) /\
  send_calls (trace (githubWebHook W req st).2) = send_calls (trace st).
Proof.
  intros Hdone Hstatus.
  destruct (githubWebHook_gate W req st) as [(r' & tr & Hrun & Hg & Hs & _ & Hcodes) | [p Hreq]].
  - rewrite Hrun in Hdone |- *. simpl in *. injection Hdone as ->.
    rewrite github_calls_app, send_calls_app, Hg, Hs, !app_nil_r.
    repeat split; try reflexivity. tauto.
  - exfalso. rewrite (githubWebHook_created_cases W req p st Hreq) in Hdone.
    destruct (getNameForUser W (Login (comment_User (Comment p))) st)
      as [[author| |reason] st1]; try discriminate.
    destruct (extractEmailFromIssue (issue_Body (Issue p))) as [address| |reason];
      try discriminate.
    destruct (dryrun (globals st));
      [| destruct (mg_Send W _ _ _ address) as [[resp id]|err];
         [destruct (String.eqb id ""); [| destruct (kv (globals st))] |]];
      simpl in Hdone; try discriminate; injection Hdone as <-; now apply Hstatus.
Qed.

Lemma githubWebHook_rejection_is_inert_witness :
  (status (http_Error (StatusText 406) 406) = 400 \/
   status (http_Error (StatusText 406) 406) = 405 \/
   status (http_Error (StatusText 406) 406) = 406 \/
   status (http_Error (StatusText 406) 406) = 500) /\
  globals (githubWebHook up
     {| Method := "POST"; Header := <["X-GitHub-Event" := "issue_comment"]> ∅;
        Body := Decoded (comment_event "created" 7); ParseForm := None; PostForm := ∅ |}
     (opened false ∅)).2 = globals (opened false ∅) /\
  github_calls (trace (githubWebHook up
     {| Method := "POST"; Header := <["X-GitHub-Event" := "issue_comment"]> ∅;
        Body := Decoded (comment_event "created" 7); ParseForm := None; PostForm := ∅ |}
     (opened false ∅)).2) = github_calls (trace (opened false ∅)) /\
  send_calls (trace (githubWebHook up
     {| Method := "POST"; Header := <["X-GitHub-Event" := "issue_comment"]> ∅;
        Body := Decoded (comment_event "created" 7); ParseForm := None; PostForm := ∅ |}
     (opened false ∅)).2) = send_calls (trace (opened false ∅)).
Proof.
  apply (githubWebHook_rejection_is_inert up _ (opened false ∅)
           (http_Error (StatusText 406) 406)); [reflexivity | discriminate].
Defined.

(** X12. The store handle changes only in one way: dry-run is off, the
    store is open, a mail was handed to Mailgun, which returned a message
    id that is not empty, and the store gains the issue number of the
    event under that id; the request is then answered 200. *)
Theorem githubWebHook_store_written_after_send (W : World) (req : Request) (st : St) :
  kv (globals (githubWebHook W req st).2) = kv (globals st) \/
  exists (p : payload) (db : gmap string Z) (sender subject text recipient resp id : string),
    Body req = Decoded p /\
    dryrun (globals st) = false /\
    kv (globals st) = Some db /\
    mg_Send W sender subject text recipient = Ok (resp, id) /\
    id <> "" /\
    send_calls (trace (githubWebHook W req st).2)
      = send_calls (trace st) ++ [(sender, subject, text, recipient)] /\
    kv (globals (githubWebHook W req st).2) = Some (<[id := Number (Issue p)]> db) /\
    (githubWebHook W req st).1 = Done (w_Write "OK").
Proof.
  destruct (githubWebHook_gate W req st) as [(r' & tr & Hrun & _) | [p Hreq]].
  - left. now rewrite Hrun.
  - rewrite (githubWebHook_created_cases W req p st Hreq).
    destruct (getNameForUser_frame W (Login (comment_User (Comment p))) st) as (_ & Hk & Hs & _).
    destruct (getNameForUser W (Login (comment_User (Comment p))) st)
      as [[author| |reason] st1]; simpl in Hk, Hs; try (left; exact Hk).
    destruct (extractEmailFromIssue (issue_Body (Issue p))) as [address| |reason];
      try (left; exact Hk).
    destruct (dryrun (globals st)) eqn:Hdry; [left; exact Hk |].
    destruct (mg_Send W _ _ _ address) as [[resp id]|err] eqn:Hsend; [| left; exact Hk].
    destruct (String.eqb id "") eqn:Hid; [left; exact Hk |].
    destruct (kv (globals st)) as [db|] eqn:Hkv; [| left; simpl; congruence].
    right. exists p, db, (author +:+ " <bugs@usegalaxy.eu>"), ("Re: " +:+ Title (Issue p)),
      (comment_Body (Comment p)), address, resp, id.
    apply String.eqb_neq in Hid. destruct Hreq as (_ & _ & _ & Hbody & _).
    simpl. rewrite send_calls_app, Hs. repeat split; auto.
Qed.

(** X13. Whatever the request, [githubWebHook] never submits a comment
    and never changes [dryrun]; it calls GitHub at most once, for the
    identity lookup, and hands at most one mail to Mailgun. *)
Theorem githubWebHook_call_bounds (W : World) (req : Request) (st : St) :
  comment_calls (trace (githubWebHook W req st).2) = comment_calls (trace st) /\
  dryrun (globals (githubWebHook W req st).2) = dryrun (globals st) /\
  (github_calls (trace (githubWebHook W req st).2) = github_calls (trace st) \/
   exists username, github_calls (trace (githubWebHook W req st).2)
                      = github_calls (trace st) ++ [UsersGet username]) /\
  (send_calls (trace (githubWebHook W req st).2) = send_calls (trace st) \/
   exists mail, send_calls (trace (githubWebHook W req st).2)
                  = send_calls (trace st) ++ [mail]).
Proof.
  destruct (githubWebHook_gate W req st) as [(r' & tr & Hrun & Hg & Hs & Hc & _) | [p Hreq]].
  - rewrite Hrun. simpl.
    rewrite comment_calls_app, github_calls_app, send_calls_app, Hg, Hs, Hc, !app_nil_r.
    repeat split; auto.
  - rewrite (githubWebHook_created_cases W req p st Hreq).
    destruct (getNameForUser_frame W (Login (comment_User (Comment p))) st)
      as (Hd & _ & Hs & Hc & _).
    pose proof (getNameForUser_calls W (Login (comment_User (Comment p))) st) as Hg.
    assert (Hg' : github_calls (trace (getNameForUser W (Login (comment_User (Comment p))) st).2)
                    = github_calls (trace st) \/
                  exists username,
                    github_calls (trace (getNameForUser W (Login (comment_User (Comment p))) st).2)
                      = github_calls (trace st) ++ [UsersGet username])
      by (destruct Hg; eauto).
    clear Hg.
    destruct (getNameForUser W (Login (comment_User (Comment p))) st)
      as [[author| |reason] st1]; simpl in Hd, Hs, Hc, Hg'; try (repeat split; auto; fail).
    destruct (extractEmailFromIssue (issue_Body (Issue p))) as [address| |reason];
      try (repeat split; auto; fail).
    destruct (dryrun (globals st)) eqn:Hdry;
      [| destruct (mg_Send W _ _ _ address) as [[resp id]|err];
         [destruct (String.eqb id ""); [| destruct (kv (globals st))] |]];
      simpl; rewrite comment_calls_app, github_calls_app, send_calls_app, Hc, Hs;
      simpl; rewrite ?app_nil_r; repeat split; eauto.
Qed.

(** ** More on [mailgunWebHook] and [emailToComment] *)

(** X14. Whatever the request, [mailgunWebHook] changes no package-level
    variable, the store among them, and sends no mail; it submits at most
    one comment. *)
Theorem mailgunWebHook_frame (W : World) (req : Request) (st : St) :
  globals (mailgunWebHook W req st).2 = globals st /\
  send_calls (trace (mailgunWebHook W req st).2) = send_calls (trace st) /\
  (comment_calls (trace (mailgunWebHook W req st).2) = comment_calls (trace st) \/
   exists c, comment_calls (trace (mailgunWebHook W req st).2)
               = comment_calls (trace st) ++ [c]).
Proof.
  unfold mailgunWebHook.
  destruct (negb (String.eqb (Method req) "POST")); [simpl; auto |].
  destruct (ParseForm req); [simpl; auto |].
  unfold mbind, M_bind, lift.
  destruct (PostForm_at req "From") as [|from ?]; [simpl; auto |].
  destruct (PostForm_at req "stripped-html") as [|html_body ?]; [simpl; auto |].
  destruct (PostForm_at req "In-Reply-To") as [|in_reply_to ?]; [simpl; auto |].
  simpl. destruct (kv (globals st)) as [db|] eqn:Hkv.
  - rewrite (emailToComment_opened W _ _ st db Hkv). simpl.
    unfold emailToComment_events.
    destruct (entry_events_silent db (Rkv.GetKeys db)) as (Hs & Hc & _).
    destruct (Issues_Get W "usegalaxy.eu" "issues" 1); destruct (dryrun (globals st));
      try destruct (Issues_CreateComment W "usegalaxy.eu" "issue-testing" 1 _);
      repeat (rewrite ?send_calls_app, ?comment_calls_app, ?Hs, ?Hc; simpl);
      rewrite ?app_nil_r; repeat split; eauto.
  - rewrite (emailToComment_nil W _ _ st Hkv). simpl.
    rewrite send_calls_app, comment_calls_app. simpl. rewrite !app_nil_r. auto.
Qed.

(** X15. Whenever [mailgunWebHook] answers with a status other than 200,
    which is 405 for a method other than POST and 500 for a form that does
    not parse, the request had no effect at all. *)
Theorem mailgunWebHook_rejection_is_inert (W : World) (req : Request) (st : St)
    (r : Response) :
  (mailgunWebHook W req st).1 = Done r ->
  status r <> 200 ->
  (status r = 405 \/ status r = 500) /\ (mailgunWebHook W req st).2 = st.
Proof.
  unfold mailgunWebHook.
  destruct (negb (String.eqb (Method req) "POST")).
  { simpl. intros H _. injection H as <-. auto. }
  destruct (ParseForm req) as [err|].
  { simpl. intros H _. injection H as <-. auto. }
  unfold mbind, M_bind, lift.
  destruct (PostForm_at req "From") as [|from ?]; [discriminate |].
  destruct (PostForm_at req "stripped-html") as [|html_body ?]; [discriminate |].
  destruct (PostForm_at req "In-Reply-To") as [|in_reply_to ?]; [discriminate |].
  simpl. destruct (kv (globals st)) as [db|] eqn:Hkv.
  - rewrite (emailToComment_opened W _ _ st db Hkv). simpl.
    intros H Hs. injection H as <-. now contradiction Hs.
  - now rewrite (emailToComment_nil W _ _ st Hkv).
Qed.

Lemma mailgunWebHook_rejection_is_inert_witness :
  (status (http_Error "invalid semicolon separator in query" 500) = 405 \/
   status (http_Error "invalid semicolon separator in query" 500) = 500) /\
  (mailgunWebHook up
     {| Method := "POST"; Header := ∅; Body := UnmarshalFailed "invalid character";
        ParseForm := Some "invalid semicolon separator in query"; PostForm := ∅ |}
     (opened false ∅)).2 = opened false ∅.
Proof.
  apply (mailgunWebHook_rejection_is_inert up _ (opened false ∅)
           (http_Error "invalid semicolon separator in query" 500));
    [reflexivity | discriminate].
Defined.

(** With a nil store handle, a mail with its three fields makes the
    handler panic in [kv.GetKeys], with dry-run on or off. *)
Lemma mailgunWebHook_nil_store (W : World) (req : Request) (st : St)
    (from html_body in_reply_to : string) :
  form_posted req ->
  form_fields req from html_body in_reply_to ->
  kv (globals st) = None ->
  mailgunWebHook W req st =
  (Panic "invalid memory address or nil pointer dereference",
   {| globals := globals st; trace := trace st ++ [Log Info "Comment Hanlder"] |}).
Proof.
  intros Hp (Hf & Hh & Hr) Hkv. rewrite (mailgunWebHook_posted W req st Hp).
  rewrite Hf, Hh, Hr. unfold mbind, M_bind, lift.
  now rewrite (emailToComment_nil W _ _ st Hkv).
Qed.

(** X16. When the fetch of the issue fails, the error is logged and the
    handler goes on: with the store open and dry-run off the comment is
    submitted all the same and the request is answered 200. *)
Theorem mailgunWebHook_fetch_error_ignored (W : World) (req : Request) (st : St)
    (from html_body in_reply_to err : string) (db : gmap string Z) :
  form_posted req ->
  form_fields req from html_body in_reply_to ->
  kv (globals st) = Some db ->
  dryrun (globals st) = false ->
  Issues_Get W "usegalaxy.eu" "issues" 1 = Some err ->
  (mailgunWebHook W req st).1 = Done (w_Write "OK") /\
  comment_calls (trace (mailgunWebHook W req st).2)
    = comment_calls (trace st) ++ [(1, quoted_reply from html_body)] /\
  error_logs (trace (mailgunWebHook W req st).2)
    = error_logs (trace st) ++ err ::
      match Issues_CreateComment W "usegalaxy.eu" "issue-testing" 1
              (quoted_reply from html_body) with
      | Some err' => [err']
      | None => []
      end.
Proof.
  intros Hp Hf Hkv Hdry Hget.
  rewrite (mailgunWebHook_opened W req st from html_body in_reply_to db Hp Hf Hkv).
  unfold emailToComment_events. rewrite Hdry, Hget. simpl.
  destruct (entry_events_silent db (Rkv.GetKeys db)) as (_ & Hc & _ & He).
  split; [reflexivity |].
  destruct (Issues_CreateComment W "usegalaxy.eu" "issue-testing" 1 (quoted_reply from html_body));
    repeat (rewrite ?comment_calls_app, ?error_logs_app, ?Hc, ?He; simpl); now split.
Qed.

Lemma mailgunWebHook_fetch_error_ignored_witness :
  (mailgunWebHook
     {| Users_Get := Users_Get up; Issues_Get := fun _ _ _ => Some "404 Not Found";
        Issues_CreateComment := Issues_CreateComment up; mg_Send := mg_Send up |}
     (reply "a@x.org" "hi" "m-100") (opened false ∅)).1 = Done (w_Write "OK").
Proof.
  apply (mailgunWebHook_fetch_error_ignored
           {| Users_Get := Users_Get up; Issues_Get := fun _ _ _ => Some "404 Not Found";
              Issues_CreateComment := Issues_CreateComment up; mg_Send := mg_Send up |}
           (reply "a@x.org" "hi" "m-100") (opened false ∅) "a@x.org" "hi" "m-100"
           "404 Not Found" ∅);
    [split; reflexivity | repeat split; reflexivity | reflexivity | reflexivity | reflexivity].
Defined.

(** ** The listing of the store and the start of the process *)

Lemma entry_events_all (db : gmap string Z) :
  entry_events db (Rkv.GetKeys db)
  = List.map (fun entry => PrintEntry entry.1 entry.2) (map_to_list db).
Proof.
  unfold entry_events, Rkv.GetKeys.
  assert (H : forall l : list (string * Z),
            (forall k v, (k, v) ∈ l -> db !! k = Some v) ->
            List.map (fun key => PrintEntry key (default 0 (db !! key))) (l.*1)
            = List.map (fun entry => PrintEntry entry.1 entry.2) l).
  { induction l as [|[k v] l IH]; intros Hl; [reflexivity |]. simpl.
    rewrite (Hl k v) by apply list_elem_of_here. simpl. f_equal.
    apply IH. intros k' v' Hin. apply Hl. now apply list_elem_of_further. }
  apply H. intros k v Hin. now apply elem_of_map_to_list in Hin.
Qed.

(** X18. The start of the process. When the store cannot be opened the
    process exits. Otherwise the entries are listed, [dryrun] takes the
    value of the flag, the cache starts empty, and the package-level store
    handle keeps the value it had: from the zero values of Go it is nil,
    whatever store was opened. *)
Theorem app_Action_startup (flag_dryrun : bool) (opened : result (gmap string Z)) (st : St) :
  match opened with
  | Ok db =>
      app_Action flag_dryrun opened st =
      (Done tt,
       {| globals := {| dryrun := flag_dryrun; kv := kv (globals st); gh_cache := ∅ |};
          trace := trace st ++ entry_events db (Rkv.GetKeys db) |})
  | Err _ =>
      app_Action flag_dryrun opened st =
      (Exit, {| globals := globals st;
                trace := trace st ++ [Log Fatal "Can not open database file"] |})
  end /\
  kv (globals (app_Action flag_dryrun opened (start zero_globals)).2) = None.
Proof.
  split; [| now rewrite app_Action_keeps_kv].
  destruct opened as [db|err]; unfold app_Action; [| reflexivity].
  unfold mbind at 1, M_bind at 1. now rewrite print_entries_all.
Qed.

(** X19. In a process started by [main] with a store that opens, every
    mail with its three fields ends in the panic of the nil store handle,
    with dry-run on or off and whatever the store holds: GitHub is never
    called and no comment is submitted. *)
Theorem started_process_drops_mail (W : World) (flag_dryrun : bool) (db : gmap string Z)
    (req : Request) (from html_body in_reply_to : string) :
  form_posted req ->
  form_fields req from html_body in_reply_to ->
  (mailgunWebHook W req (app_Action flag_dryrun (Ok db) (start zero_globals)).2).1
    = Panic "invalid memory address or nil pointer dereference" /\
  github_calls (trace (mailgunWebHook W req
                         (app_Action flag_dryrun (Ok db) (start zero_globals)).2).2) = [].
Proof.
  intros Hp Hf.
  rewrite (mailgunWebHook_nil_store W req _ from html_body in_reply_to Hp Hf)
    by apply main_kv_nil.
  split; [reflexivity |]. simpl.
  unfold app_Action. unfold mbind at 1, M_bind at 1. rewrite print_entries_all. simpl.
  destruct (entry_events_silent db (Rkv.GetKeys db)) as (_ & _ & Hg & _).
  now rewrite github_calls_app, Hg.
Qed.

Lemma started_process_drops_mail_witness :
  (mailgunWebHook up (reply "a@x.org" "hi" "m-100")
     (app_Action false (Ok (<["m-100" := 7]> ∅)) (start zero_globals)).2).1
    = Panic "invalid memory address or nil pointer dereference" /\
  github_calls (trace (mailgunWebHook up (reply "a@x.org" "hi" "m-100")
     (app_Action false (Ok (<["m-100" := 7]> ∅)) (start zero_globals)).2).2) = [].
Proof.
  apply (started_process_drops_mail up false (<["m-100" := 7]> ∅)
           (reply "a@x.org" "hi" "m-100") "a@x.org" "hi" "m-100");
    [split; reflexivity | repeat split; reflexivity].
Defined.

(** ** Across the two handlers, and the ways out of the process *)

(** X20. What [githubWebHook] stores is what the listing of
    [emailToComment] prints: after a created comment was mailed and its
    message id stored, the next mail with its three fields is answered 200
    and its trace holds the printed pair of that id and the issue number. *)
Theorem stored_correlation_is_listed (W W' : World) (req mail : Request) (p : payload)
    (st st1 : St) (author address resp id from html_body in_reply_to : string)
    (db : gmap string Z) :
  comment_created req p ->
  dryrun (globals st) = false ->
  kv (globals st) = Some db ->
  getNameForUser W (Login (comment_User (Comment p))) st = (Done author, st1) ->
  extractEmailFromIssue (issue_Body (Issue p)) = Done address ->
  mg_Send W (author +:+ " <bugs@usegalaxy.eu>") ("Re: " +:+ Title (Issue p))
    (comment_Body (Comment p)) address = Ok (resp, id) ->
  id <> "" ->
  form_posted mail ->
  form_fields mail from html_body in_reply_to ->
  (mailgunWebHook W' mail (githubWebHook W req st).2).1 = Done (w_Write "OK") /\
  In (PrintEntry id (Number (Issue p)))
     (trace (mailgunWebHook W' mail (githubWebHook W req st).2).2).
Proof.
  intros Hreq Hdry Hkv Hname Haddr Hsend Hid Hp Hf.
  rewrite (githubWebHook_delivered W req p st st1 author address resp id db) by assumption.
  cbn [snd].
  match goal with |- context [mailgunWebHook W' mail ?s] =>
    rewrite (mailgunWebHook_opened W' mail s from html_body in_reply_to
               (<[id := Number (Issue p)]> db) Hp Hf eq_refl) end.
  split; [reflexivity |]. simpl. unfold emailToComment_events.
  apply in_or_app. right. simpl. right. apply in_or_app. left.
  rewrite entry_events_all. apply in_map_iff. exists (id, Number (Issue p)).
  split; [reflexivity |]. apply list_elem_of_In, elem_of_map_to_list, lookup_insert_eq.
Qed.

Lemma stored_correlation_is_listed_witness :
  (mailgunWebHook up (reply "a@x.org" "hi" "m-100")
     (githubWebHook up (tracker_request "created" 7) (opened false ∅)).2).1
    = Done (w_Write "OK") /\
  In (PrintEntry "m-100" 7)
     (trace (mailgunWebHook up (reply "a@x.org" "hi" "m-100")
               (githubWebHook up (tracker_request "created" 7) (opened false ∅)).2).2).
Proof.
  apply (stored_correlation_is_listed up up (tracker_request "created" 7)
           (reply "a@x.org" "hi" "m-100") (comment_event "created" 7) (opened false ∅)
           (getNameForUser up "alice" (opened false ∅)).2
           "Alice A." "a@x.org" "Queued. Thank you." "m-100" "a@x.org" "hi" "m-100" ∅);
    [repeat split; reflexivity | reflexivity | reflexivity | reflexivity | reflexivity
    | reflexivity | discriminate | split; reflexivity | repeat split; reflexivity].
Defined.

Lemma extractEmailFromIssue_never_exits (body : string) :
  extractEmailFromIssue body <> Exit.
Proof.
  unfold extractEmailFromIssue. rewrite slice_from_cases.
  destruct (_ && _); [| discriminate]. unfold mbind at 1, outcome_bind at 1.
  rewrite slice_to_cases. destruct (_ && _); [| discriminate].
  unfold mbind at 1, outcome_bind at 1.
  pose proof (cut_at_quote (take (Z.to_nat (Index (drop (Z.to_nat (Index body mailto_marker + len mailto_marker)) body) "</a>"))
                                 (drop (Z.to_nat (Index body mailto_marker + len mailto_marker)) body))) as Hcut.
  destruct (slice_to _ _); unfold mbind, outcome_bind, mret, outcome_ret;
    [discriminate | contradiction | discriminate].
Qed.

Lemma getNameForUser_exit (W : World) (username : string) (st : St) :
  (getNameForUser W username st).1 = Exit ->
  gh_cache (globals st) !! username = None /\ exists err, Users_Get W username = Err err.
Proof.
  unfold getNameForUser, cache_Set. run.
  destruct (gh_cache (globals st) !! username); run; [discriminate |].
  destruct (Users_Get W username) as [[name|]|err]; run; try discriminate. eauto.
Qed.

(** X21. [githubWebHook] ends the process in two cases only, both on a
    created comment: the author is not in the cache and the identity
    lookup fails, or dry-run is off and Mailgun refuses the one mail that
    was handed to it. *)
Theorem githubWebHook_exits_on_provider_failure (W : World) (req : Request) (st : St) :
  (githubWebHook W req st).1 = Exit ->
  exists p, comment_created req p /\
    ((gh_cache (globals st) !! Login (comment_User (Comment p)) = None /\
      exists err, Users_Get W (Login (comment_User (Comment p))) = Err err) \/
     (dryrun (globals st) = false /\
      exists sender subject text recipient err,
        mg_Send W sender subject text recipient = Err err /\
        send_calls (trace (githubWebHook W req st).2)
          = send_calls (trace st) ++ [(sender, subject, text, recipient)])).
Proof.
  intros Hexit.
  destruct (githubWebHook_gate W req st) as [(r' & tr & Hrun & _) | [p Hreq]].
  { rewrite Hrun in Hexit. discriminate. }
  exists p. split; [exact Hreq |].
  rewrite (githubWebHook_created_cases W req p st Hreq) in Hexit |- *.
  pose proof (getNameForUser_exit W (Login (comment_User (Comment p))) st) as Hname.
  destruct (getNameForUser_frame W (Login (comment_User (Comment p))) st) as (_ & _ & Hs & _).
  destruct (getNameForUser W (Login (comment_User (Comment p))) st)
    as [[author| |reason] st1]; simpl in Hname, Hs; try discriminate; [| left; auto].
  pose proof (extractEmailFromIssue_never_exits (issue_Body (Issue p))) as Hex.
  destruct (extractEmailFromIssue (issue_Body (Issue p))) as [address| |reason];
    try discriminate; [| contradiction].
  destruct (dryrun (globals st)); [discriminate |].
  destruct (mg_Send W _ _ _ address) as [[resp id]|err] eqn:Hsend.
  - destruct (String.eqb id ""); [| destruct (kv (globals st))]; discriminate.
  - right. split; [reflexivity |]. do 5 eexists. split; [exact Hsend |].
    simpl. now rewrite send_calls_app, Hs.
Qed.

Lemma githubWebHook_exits_on_provider_failure_witness :
  exists p, comment_created (tracker_request "created" 7) p /\
    ((gh_cache (globals (opened false ∅)) !! Login (comment_User (Comment p)) = None /\
      exists err, Users_Get identity_down (Login (comment_User (Comment p))) = Err err) \/
     (dryrun (globals (opened false ∅)) = false /\
      exists sender subject text recipient err,
        mg_Send identity_down sender subject text recipient = Err err /\
        send_calls (trace (githubWebHook identity_down (tracker_request "created" 7)
                             (opened false ∅)).2)
          = send_calls (trace (opened false ∅)) ++ [(sender, subject, text, recipient)])).
Proof.
  apply (githubWebHook_exits_on_provider_failure identity_down (tracker_request "created" 7)
           (opened false ∅)). reflexivity.
Defined.
